(** * A rule engine over an abstract syntax tree: model and properties

    Shallow embedding of [src/main.py] (class [RuleEngine] with its
    tokenizer, recursive-descent parser, attribute catalog and tree-walking
    evaluator), followed by the properties established about it.

    Conventions of the embedding.
    - A Python [str] is a [string]: a sequence of code points below 256.
    - A call either returns, raises an exception (a subclass of
      [Exception]), or leaves the model: [Unmodelled] marks the places
      whose result depends on the regular expression engine behind
      [re.match], on the wall clock, on the order of two lists, on a
      character above U+00FF, or on whether two floats that are not a
      number are one object.  Nothing is proved about a run that ends in
      [Unmodelled].
    - Python dictionaries keyed by strings are [gmap string _]; the
      [constraints] dictionary, which the code iterates in insertion
      order, is an association list. *)

From Stdlib Require Import ZArith String Ascii List Lia SpecFloat.
From stdpp Require Import gmap strings list pretty.

Open Scope string_scope.
Open Scope list_scope.
Set Warnings "-register-all".

(** ** Characters and strings *)

Definition dquote : ascii := "034"%char.
Definition squote : ascii := "039"%char.
Definition lparen : ascii := "("%char.
Definition rparen : ascii := ")"%char.

Definition code (c : ascii) : nat := nat_of_ascii c.

(** [str.isspace] on a single code point below 256; also the class [\s] of
    the [re] module on [str] patterns. *)
Definition is_space (c : ascii) : bool :=
  let n := code c in
  (((9 <=? n) && (n <=? 13)) || ((28 <=? n) && (n <=? 32))
   || (n =? 133) || (n =? 160))%nat.

Definition is_digit (c : ascii) : bool :=
  let n := code c in ((48 <=? n) && (n <=? 57))%nat.

Definition digit_val (c : ascii) : Z := Z.of_nat (code c) - 48.

Definition chars (s : string) : list ascii := list_ascii_of_string s.
Definition str (l : list ascii) : string := string_of_list_ascii l.

Fixpoint drop_while (f : ascii -> bool) (l : list ascii) : list ascii :=
  match l with
  | c :: r => if f c then drop_while f r else l
  | [] => []
  end.

Definition strip_with (f : ascii -> bool) (s : string) : string :=
  str (rev (drop_while f (rev (drop_while f (chars s))))).

(** [s.strip()] *)
Definition py_strip (s : string) : string := strip_with is_space s.

(** The white space that [int] and [float] skip around a number.  The
    conversion first maps the white space above U+007F to a blank and
    leaves every character below as it is, then skips the characters of
    [isspace] in C: U+001C to U+001F are white space for [str.strip], not
    here. *)
Definition is_c_space (c : ascii) : bool :=
  let n := code c in (((9 <=? n) && (n <=? 13)) || (n =? 32))%nat.

Definition is_number_space (c : ascii) : bool :=
  let n := code c in (is_c_space c || (n =? 133) || (n =? 160))%nat.

Definition number_strip (s : string) : string :=
  strip_with is_number_space s.

(** [s.startswith(c)] and [s.endswith(c)] for a one-character [c]. *)
Definition startswith (s : string) (c : ascii) : bool :=
  match chars s with
  | x :: _ => bool_decide (x = c)
  | [] => false
  end.

Definition endswith (s : string) (c : ascii) : bool :=
  match rev (chars s) with
  | x :: _ => bool_decide (x = c)
  | [] => false
  end.

(** [s[1:-1]] *)
Definition slice_1_m1 (s : string) : string :=
  str (removelast (tail (chars s))).

(** [s[:-1]] *)
Definition slice_m1 (s : string) : string := str (removelast (chars s)).

(** [c in s] for a one-character [c]. *)
Definition contains (c : ascii) (s : string) : bool :=
  existsb (fun x => bool_decide (x = c)) (chars s).

Fixpoint is_prefix (p l : list ascii) : bool :=
  match p, l with
  | [], _ => true
  | x :: p', y :: l' => bool_decide (x = y) && is_prefix p' l'
  | _ :: _, [] => false
  end.

Fixpoint is_infix (p l : list ascii) : bool :=
  is_prefix p l || match l with [] => false | _ :: l' => is_infix p l' end.

(** [a in b] on strings: substring test. *)
Definition substring_of (a b : string) : bool := is_infix (chars a) (chars b).

(** [a < b] on strings: lexicographic on code points. *)
Fixpoint lex_lt (a b : list ascii) : bool :=
  match a, b with
  | _, [] => false
  | [], _ :: _ => true
  | x :: a', y :: b' =>
      if (code x <? code y)%nat then true
      else if (code y <? code x)%nat then false
      else lex_lt a' b'
  end.

(** Case mappings of [str.lower] and [str.upper] on code points below 256.
    Upper-casing U+00B5 and U+00FF leaves that range: [None]. *)
Definition lower_char (c : ascii) : ascii :=
  let n := code c in
  if (((65 <=? n) && (n <=? 90))
      || ((192 <=? n) && (n <=? 222) && negb (n =? 215)))%nat
  then ascii_of_nat (n + 32) else c.

Definition upper_char (c : ascii) : option (list ascii) :=
  let n := code c in
  if (((97 <=? n) && (n <=? 122))
      || ((224 <=? n) && (n <=? 254) && negb (n =? 247)))%nat
  then Some [ascii_of_nat (n - 32)]
  else if (n =? 223)%nat then Some ["S"%char; "S"%char]
  else if ((n =? 181) || (n =? 255))%nat then None
  else Some [c].

Definition py_lower (s : string) : string := str (map lower_char (chars s)).

Fixpoint upper_chars (l : list ascii) : option (list ascii) :=
  match l with
  | [] => Some []
  | c :: r =>
      match upper_char c, upper_chars r with
      | Some u, Some r' => Some (u ++ r')
      | _, _ => None
      end
  end.

Definition py_upper (s : string) : option string :=
  str <$> upper_chars (chars s).

(** ** Binary floats *)

(** A Python [float] is a binary64 number, here a [spec_float] of
    precision 53 and exponent bound 1024.  A conversion to a float rounds
    to the nearest float, ties to even. *)
Definition double_of_Z (z : Z) : spec_float :=
  binary_normalize 53 1024 z 0 false.

(** The float nearest to [digits * 10 ^ exp10], for [digits >= 0], with
    the sign [neg].  Beyond [10 ^ 309] every number rounds to infinity, and
    below [10 ^ -325] to zero. *)
Definition double_of_decimal (neg : bool) (digits exp10 : Z) : spec_float :=
  match digits with
  | Zpos p =>
      if (0 <=? exp10)%Z then
        if (309 <=? exp10)%Z then S754_infinity neg
        else binary_normalize 53 1024
               ((if neg then Zneg p else Zpos p) * 10 ^ exp10) 0 false
      else if ((Z.log2 (Zpos p) + 1) / 3 + 1 + exp10 <=? -325)%Z
      then S754_zero neg
      else SFdiv 53 1024 (S754_finite neg p 0)
                 (S754_finite false (Z.to_pos (10 ^ (- exp10))) 0)
  | _ => S754_zero neg
  end.

(** The exact value of a number: not a number, an infinity, or the dyadic
    [m * 2 ^ e]. *)
Inductive exact : Type :=
  | ENan
  | EInf (neg : bool)
  | EDyadic (m e : Z).

Definition exact_of_double (f : spec_float) : exact :=
  match f with
  | S754_zero _ => EDyadic 0 0
  | S754_infinity s => EInf s
  | S754_nan => ENan
  | S754_finite s m e => EDyadic (if s then Zneg m else Zpos m) e
  end.

Definition dyadic_compare (m1 e1 m2 e2 : Z) : comparison :=
  let e := Z.min e1 e2 in
  (m1 * 2 ^ (e1 - e) ?= m2 * 2 ^ (e2 - e))%Z.

(** The order of two numbers; [None] when one of them is not a number. *)
Definition exact_compare (a b : exact) : option comparison :=
  match a, b with
  | ENan, _ | _, ENan => None
  | EInf s1, EInf s2 =>
      Some (if s1 then if s2 then Eq else Lt else if s2 then Gt else Eq)
  | EInf s, EDyadic _ _ => Some (if s then Lt else Gt)
  | EDyadic _ _, EInf s => Some (if s then Gt else Lt)
  | EDyadic m1 e1, EDyadic m2 e2 => Some (dyadic_compare m1 e1 m2 e2)
  end.

(** The integer part of a dyadic, as [int] truncates a float. *)
Definition dyadic_trunc (m e : Z) : Z :=
  if (0 <=? e)%Z then (m * 2 ^ e)%Z else Z.quot m (2 ^ (- e)).

(** *** The shortest decimal that reads back as the float *)

(** [10 ^ k <= p / q] *)
Definition pow10_le (k : Z) (p q : Z) : bool :=
  if (0 <=? k)%Z then (10 ^ k * q <=? p)%Z else (q <=? p * 10 ^ (- k))%Z.

(** The decimal exponent of [p / q]: the [k] with
    [10 ^ k <= p / q < 10 ^ (k + 1)], reached from an estimate on the
    numbers of bits. *)
Fixpoint decimal_exponent (fuel : nat) (k : Z) (p q : Z) : Z :=
  match fuel with
  | O => k
  | S fuel' =>
      if negb (pow10_le k p q) then decimal_exponent fuel' (k - 1) p q
      else if pow10_le (k + 1) p q then decimal_exponent fuel' (k + 1) p q
      else k
  end.

(** The decimal digits of a positive integer, most significant first. *)
Definition digit_string (z : Z) : list ascii := chars (pretty z).

Definition strip_zeros (digits : list ascii) : list ascii :=
  rev (drop_while (fun c => bool_decide (c = "0"%char)) (rev digits)).

(** The candidates with [n] digits around [p / q], whose decimal exponent
    is [k]: the digits of the one that reads back as [f], the nearer of the
    two when both do, and the position of its decimal point. *)
Definition candidate (f : spec_float) (p q k : Z) (n : nat)
  : option (list ascii * Z) :=
  let s := (Z.of_nat n - 1 - k)%Z in
  let num := if (0 <=? s)%Z then (p * 10 ^ s)%Z else p in
  let den := if (0 <=? s)%Z then q else (q * 10 ^ (- s))%Z in
  let lo := (num / den)%Z in
  let rem := (num mod den)%Z in
  let reads c :=
    match exact_compare (exact_of_double (double_of_decimal false c (- s)%Z))
                        (exact_of_double f) with
    | Some Eq => true
    | _ => false
    end in
  let pick c := Some (strip_zeros (digit_string c),
                      (Z.of_nat (length (digit_string c)) - s)%Z) in
  if (rem =? 0)%Z then (if reads lo then pick lo else None)
  else
    match reads lo, reads (lo + 1)%Z with
    | true, true => if (2 * rem <=? den)%Z then pick lo else pick (lo + 1)%Z
    | true, false => pick lo
    | false, true => pick (lo + 1)%Z
    | false, false => None
    end.

Fixpoint shortest (f : spec_float) (p q k : Z) (n : nat) (fuel : nat)
  : list ascii * Z :=
  match fuel with
  | O => ([], 0%Z)
  | S fuel' =>
      match candidate f p q k n with
      | Some r => r
      | None => shortest f p q k (S n) fuel'
      end
  end.

(** [repr] of the positive float [m * 2 ^ e]: the digits, laid out with an
    exponent when the decimal point lies more than sixteen digits to the
    right of the first digit or more than three zeros to its left. *)
Definition repr_finite (m : positive) (e : Z) : string :=
  let p := if (0 <=? e)%Z then (Zpos m * 2 ^ e)%Z else Zpos m in
  let q := if (0 <=? e)%Z then 1%Z else (2 ^ (- e))%Z in
  let k := decimal_exponent 8 ((Z.log2 p - Z.log2 q) * 30103 / 100000) p q in
  let '(digits, decpt) := shortest (S754_finite false m e) p q k 1 17 in
  let zeros (n : Z) := repeat "0"%char (Z.to_nat n) in
  str
    (if ((decpt <=? -4) || (16 <? decpt))%Z then
       let x := (decpt - 1)%Z in
       firstn 1 digits
       ++ match skipn 1 digits with
          | [] => []
          | more => "."%char :: more
          end
       ++ "e"%char :: (if (x <? 0)%Z then "-"%char else "+"%char)
       :: (if (Z.abs x <? 10)%Z then ["0"%char] else [])
       ++ chars (pretty (Z.abs x))
     else if (decpt <=? 0)%Z then
       "0"%char :: "."%char :: zeros (- decpt)%Z ++ digits
     else if (Z.of_nat (length digits) <=? decpt)%Z then
       digits ++ zeros (decpt - Z.of_nat (length digits))%Z
       ++ ["."%char; "0"%char]
     else
       firstn (Z.to_nat decpt) digits ++ "."%char
       :: skipn (Z.to_nat decpt) digits).

(** [repr(x)] and [str(x)] of a float. *)
Definition float_repr (f : spec_float) : string :=
  match f with
  | S754_nan => "nan"
  | S754_infinity s => if s then "-inf" else "inf"
  | S754_zero s => if s then "-0.0" else "0.0"
  | S754_finite s m e => (if s then "-" else "") +:+ repr_finite m e
  end.

(** ** Values, exceptions and outcomes *)

(** The Python values of the model. *)
Inductive PyVal : Type :=
  | VNone
  | VBool (b : bool)
  | VInt (z : Z)
  | VFloat (f : spec_float)
  | VStr (s : string)
  | VList (l : list PyVal).

Inductive exn : Type :=
  | RuleValidationError (msg : string)
  | AttributeValidationError (msg : string)
  | PyException (cls : string) (msg : string).

(** [str(e)] *)
Definition exn_str (e : exn) : string :=
  match e with
  | RuleValidationError m | AttributeValidationError m | PyException _ m => m
  end.

Inductive outcome (A : Type) : Type :=
  | Ok (a : A)
  | Raise (e : exn)
  | Unmodelled.
Arguments Ok {A} a.
Arguments Raise {A} e.
Arguments Unmodelled {A}.

#[global] Instance outcome_ret : MRet outcome := @Ok.
#[global] Instance outcome_bind : MBind outcome := fun A B f m =>
  match m with
  | Ok a => f a
  | Raise e => Raise e
  | Unmodelled => Unmodelled
  end.

#[global] Instance outcome_fmap : FMap outcome := fun A B f m =>
  match m with
  | Ok a => Ok (f a)
  | Raise e => Raise e
  | Unmodelled => Unmodelled
  end.

Definition TypeError (msg : string) : exn := PyException "TypeError" msg.

(** [type(v).__name__] *)
Definition type_name (v : PyVal) : string :=
  match v with
  | VNone => "NoneType"
  | VBool _ => "bool"
  | VInt _ => "int"
  | VFloat _ => "float"
  | VStr _ => "str"
  | VList _ => "list"
  end.

(** ** Built-in operations of Python used by the engine *)

Definition hex_digit (n : nat) : ascii :=
  ascii_of_nat (if (n <? 10)%nat then 48 + n else 87 + n).

(** One character of [repr(s)], with [q] the quote that delimits it. *)
Definition repr_char (q c : ascii) : list ascii :=
  let n := code c in
  if bool_decide (c = "\"%char) then ["\"%char; "\"%char]
  else if bool_decide (c = q) then ["\"%char; q]
  else if (n =? 9)%nat then ["\"%char; "t"%char]
  else if (n =? 10)%nat then ["\"%char; "n"%char]
  else if (n =? 13)%nat then ["\"%char; "r"%char]
  else if ((n <? 32) || ((127 <=? n) && (n <=? 160)) || (n =? 173))%nat
  then ["\"%char; "x"%char; hex_digit (n / 16); hex_digit (n mod 16)]
  else [c].

(** [repr(s)] of a string: single quotes unless the string holds a single
    quote and no double quote. *)
Definition repr_str (s : string) : string :=
  let q := if contains squote s && negb (contains dquote s)
           then dquote else squote in
  str (q :: concat (map (repr_char q) (chars s)) ++ [q]).

Definition join_comma (l : list string) : string :=
  match l with
  | [] => ""
  | x :: r => fold_left (fun acc y => acc +:+ ", " +:+ y) r x
  end.

(** The limit of [sys.int_max_str_digits] on the conversions between
    [int] and [str], at its default. *)
Definition int_max_str_digits : nat := 4300.

(** [repr(v)]; [None] where an integer of more digits than the limit would
    have to be printed, which raises [ValueError]. *)
Fixpoint py_repr (v : PyVal) : option string :=
  match v with
  | VNone => Some "None"
  | VBool true => Some "True"
  | VBool false => Some "False"
  | VInt z =>
      if (int_max_str_digits <? String.length (pretty (Z.abs z)))%nat
      then None else Some (pretty z)
  | VFloat f => Some (float_repr f)
  | VStr s => Some (repr_str s)
  | VList l =>
      (fix items (l : list PyVal) : option (list string) :=
         match l with
         | [] => Some []
         | x :: r =>
             match py_repr x, items r with
             | Some a, Some b => Some (a :: b)
             | _, _ => None
             end
         end) l
      ≫= fun parts => Some ("[" +:+ join_comma parts +:+ "]")
  end.

(** [str(v)], as the f-strings of the engine format a value. *)
Definition py_str (v : PyVal) : outcome string :=
  match v with
  | VStr s => Ok s
  | _ =>
      match py_repr v with
      | Some s => Ok s
      | None =>
          Raise (PyException "ValueError"
            ("Exceeds the limit (" +:+ pretty int_max_str_digits
             +:+ " digits) for integer string conversion; "
             +:+ "use sys.set_int_max_str_digits() to increase the limit"))
      end
  end.

(** The integer behind an [int] or [bool]. *)
Definition as_int (v : PyVal) : option Z :=
  match v with
  | VInt z => Some z
  | VBool b => Some (if b then 1 else 0)%Z
  | _ => None
  end.

(** The exact value of a number: of an [int], a [bool] or a [float]. *)
Definition exact_of (v : PyVal) : option exact :=
  match v with
  | VInt z => Some (EDyadic z 0)
  | VBool b => Some (EDyadic (if b then 1 else 0) 0)
  | VFloat f => Some (exact_of_double f)
  | _ => None
  end.

Definition is_nan (v : PyVal) : bool :=
  match v with VFloat S754_nan => true | _ => false end.

(** [a == b]: numbers by their exact values, strings and [None] with their
    like, lists item by item.  Two items that are both not a number are
    equal when they are one object, which the model does not tell. *)
Fixpoint py_eq (a b : PyVal) : outcome bool :=
  match a, b with
  | VNone, VNone => Ok true
  | VStr x, VStr y => Ok (bool_decide (x = y))
  | VList xs, VList ys =>
      if negb (length xs =? length ys)%nat then Ok false
      else
        (fix all2 (xs ys : list PyVal) : outcome bool :=
           match xs, ys with
           | x :: xs', y :: ys' =>
               e ← (if is_nan x && is_nan y then Unmodelled else py_eq x y);
               if e : bool then all2 xs' ys' else Ok false
           | _, _ => Ok true
           end) xs ys
  | _, _ =>
      match exact_of a, exact_of b with
      | Some x, Some y =>
          Ok match exact_compare x y with Some Eq => true | _ => false end
      | _, _ => Ok false
      end
  end.

(** The four ordering operators. *)
Inductive ord_op : Type := OLt | OGt | OLe | OGe.

Definition ord_symbol (o : ord_op) : string :=
  match o with OLt => "<" | OGt => ">" | OLe => "<=" | OGe => ">=" end.

(** An ordering operator on two numbers: false when one is not a number. *)
Definition ord_exact (o : ord_op) (x y : exact) : bool :=
  match exact_compare x y, o with
  | Some Lt, (OLt | OLe) => true
  | Some Gt, (OGt | OGe) => true
  | Some Eq, (OLe | OGe) => true
  | _, _ => false
  end.

Definition ord_str (o : ord_op) (x y : string) : bool :=
  match o with
  | OLt => lex_lt (chars x) (chars y)
  | OGt => lex_lt (chars y) (chars x)
  | OLe => negb (lex_lt (chars y) (chars x))
  | OGe => negb (lex_lt (chars x) (chars y))
  end.

(** [a < b], [a > b], [a <= b], [a >= b]: numbers with numbers, strings
    with strings; the ordering of lists is not modelled; any other pair
    raises [TypeError]. *)
Definition py_ord (o : ord_op) (a b : PyVal) : outcome bool :=
  match exact_of a, exact_of b with
  | Some x, Some y => Ok (ord_exact o x y)
  | _, _ =>
      match a, b with
      | VStr x, VStr y => Ok (ord_str o x y)
      | VList _, VList _ => Unmodelled
      | _, _ =>
          Raise (TypeError ("'" +:+ ord_symbol o +:+
                 "' not supported between instances of '" +:+ type_name a +:+
                 "' and '" +:+ type_name b +:+ "'"))
      end
  end.

(** [v in container] *)
Definition py_in (v container : PyVal) : outcome bool :=
  match container with
  | VStr s =>
      match v with
      | VStr x => Ok (substring_of x s)
      | _ => Raise (TypeError ("'in <string>' requires string as left operand, not "
                               +:+ type_name v))
      end
  | VList l =>
      (fix any (l : list PyVal) : outcome bool :=
         match l with
         | [] => Ok false
         | x :: r =>
             e ← (if is_nan x && is_nan v then Unmodelled else py_eq x v);
             if e : bool then Ok true else any r
         end) l
  | _ => Raise (TypeError ("argument of type '" +:+ type_name container
                           +:+ "' is not iterable"))
  end.

(** [bool(v)] *)
Definition py_bool (v : PyVal) : outcome bool :=
  match v with
  | VNone => Ok false
  | VBool b => Ok b
  | VInt z => Ok (negb (z =? 0)%Z)
  | VFloat f =>
      Ok match exact_of_double f with EDyadic 0 _ => false | _ => true end
  | VStr s => Ok (negb (bool_decide (s = "")))
  | VList l => Ok (negb (bool_decide (l = [])))
  end.

(** Digits separated by single underscores, as [int] and [float] accept
    them: [acc] is the value read so far, [after_digit] tells whether the
    previous character was a digit. *)
Fixpoint digits_value (l : list ascii) (acc : Z) (after_digit : bool)
  : option Z :=
  match l with
  | [] => if after_digit then Some acc else None
  | c :: r =>
      if is_digit c then digits_value r (10 * acc + digit_val c)%Z true
      else if bool_decide (c = "_"%char) && after_digit
      then digits_value r acc false
      else None
  end.

Definition split_sign (l : list ascii) : bool * list ascii :=
  match l with
  | c :: r =>
      if bool_decide (c = "-"%char) then (true, r)
      else if bool_decide (c = "+"%char) then (false, r)
      else (false, l)
  | [] => (false, l)
  end.

(** [int(s)] in base ten; [None] stands for [ValueError], which a number
    of more digits than the limit raises as well. *)
Definition int_of_str (s : string) : option Z :=
  let '(neg, ds) := split_sign (chars (number_strip s)) in
  if (int_max_str_digits <? length (filter (fun c => Is_true (is_digit c)) ds))%nat
  then None
  else (fun z => if neg then (- z)%Z else z) <$> digits_value ds 0 false.

Fixpoint split_at (c : ascii) (l : list ascii)
  : option (list ascii * list ascii) :=
  match l with
  | [] => None
  | x :: r =>
      if bool_decide (x = c) then Some ([], r)
      else (fun '(a, b) => (x :: a, b)) <$> split_at c r
  end.

(** The value and the number of the digits of a run that may be empty. *)
Definition digits_opt (l : list ascii) : option (Z * Z) :=
  match l with
  | [] => Some (0, 0)%Z
  | _ =>
      (fun z => (z, Z.of_nat (length (filter (fun c => Is_true (is_digit c)) l))))
      <$> digits_value l 0 false
  end.

(** [float(s)]; [None] stands for [ValueError].  After the sign come
    [inf], [infinity] or [nan] in any case, or digits with a dot among
    them or not, one digit at least, and an exponent or not. *)
Definition float_of_str (s : string) : option spec_float :=
  let '(neg, body) := split_sign (chars (number_strip s)) in
  let word := py_lower (str body) in
  if bool_decide (word = "inf") || bool_decide (word = "infinity")
  then Some (S754_infinity neg)
  else if bool_decide (word = "nan") then Some S754_nan
  else
    let '(mantissa, exponent) :=
      match split_at "e"%char body, split_at "E"%char body with
      | Some (m, e), None => (m, Some e)
      | None, Some (m, e) => (m, Some e)
      | Some (m, e), Some (m', e') =>
          if (length m <? length m')%nat then (m, Some e) else (m', Some e')
      | None, None => (body, None)
      end in
    let '(ip, fp) := default (mantissa, []) (split_at "."%char mantissa) in
    match ip, fp with
    | [], [] => None
    | _, _ =>
        '(iv, _) ← digits_opt ip;
        '(fv, fn) ← digits_opt fp;
        x ← match exponent with
            | None => Some 0%Z
            | Some e =>
                let '(eneg, ed) := split_sign e in
                (fun z => if eneg then (- z)%Z else z)
                <$> digits_value ed 0 false
            end;
        Some (double_of_decimal neg (iv * 10 ^ fn + fv) (x - fn))
    end.

(** ** The data model of the engine *)

Inductive NodeType : Type := OPERATOR | COMPARISON | FUNCTION.

Inductive Operator : Type :=
  | AND | OR | GT | LT | EQ | NE | GTE | LTE | IN | NOT_IN.

(** The classes a [data_type] ranges over in the model. *)
Inductive PyType : Type := TInt | TStr | TBool | TFloat.

(** [data_type.__name__] *)
Definition PyType_name (t : PyType) : string :=
  match t with
  | TInt => "int" | TStr => "str" | TBool => "bool" | TFloat => "float"
  end.

Record AttributeDefinition : Type := mkAttributeDefinition {
  name : string;
  data_type : PyType;
  constraints : option (list (string * PyVal));
  description : string;
  required : bool;
}.

(** The dataclass [Node]; a field left at its default is [None] ([VNone]
    for [value]).  An argument of a function node is a token or a node. *)
Inductive Node : Type := mkNode {
  node_type : NodeType;
  node_value : PyVal;
  node_left : option Node;
  node_right : option Node;
  node_operator : option Operator;
  node_field : option string;
  node_function : option string;
  node_args : option (list (PyVal + Node));
}.

(** A registered function takes its positional arguments. *)
Definition Callable : Type := list PyVal -> outcome PyVal.

Record RuleEngine : Type := mkRuleEngine {
  attribute_catalog : gmap string AttributeDefinition;
  function_registry : gmap string Callable;
}.

(** [self.operators] *)
Definition operators : gmap string Operator :=
  list_to_map [("AND", AND); ("OR", OR); (">", GT); ("<", LT); ("=", EQ);
               ("!=", NE); (">=", GTE); ("<=", LTE); ("IN", IN);
               ("NOT IN", NOT_IN)].

(** [token in self.operators]: the keys are strings. *)
Definition lookup_operator (token : PyVal) : option Operator :=
  match token with
  | VStr s => operators !! s
  | _ => None
  end.

(** *** The built-in functions *)

Definition arity_error (fn : string) (n : nat) : exn :=
  TypeError (fn +:+ " (" +:+ pretty n +:+ " given)").

Definition builtin_len : Callable := fun args =>
  match args with
  | [VStr s] => Ok (VInt (Z.of_nat (String.length s)))
  | [VList l] => Ok (VInt (Z.of_nat (length l)))
  | [v] => Raise (TypeError ("object of type '" +:+ type_name v
                             +:+ "' has no len()"))
  | _ => Raise (arity_error "len() takes exactly one argument" (length args))
  end.

(** [lambda: datetime.now().date()] reads the clock. *)
Definition builtin_today : Callable := fun args =>
  match args with
  | [] => Unmodelled
  | _ => Raise (TypeError ("RuleEngine.__init__.<locals>.<lambda>() takes 0 positional arguments but "
                           +:+ pretty (length args) +:+
                           (if (length args =? 1)%nat then " was given"
                            else " were given")))
  end.

Definition str_method (meth : string) (f : string -> outcome PyVal)
  : Callable := fun args =>
  match args with
  | [] => Raise (TypeError ("unbound method str." +:+ meth
                            +:+ "() needs an argument"))
  | [VStr s] => f s
  | VStr _ :: rest =>
      Raise (arity_error ("str." +:+ meth +:+ "() takes no arguments")
                         (length rest))
  | v :: _ => Raise (TypeError ("descriptor '" +:+ meth
                       +:+ "' for 'str' objects doesn't apply to a '"
                       +:+ type_name v +:+ "' object"))
  end.

Definition builtin_lowercase : Callable :=
  str_method "lower" (fun s => Ok (VStr (py_lower s))).

Definition builtin_uppercase : Callable :=
  str_method "upper" (fun s =>
    match py_upper s with Some u => Ok (VStr u) | None => Unmodelled end).

(** [RuleEngine.__init__] *)
Definition new_engine : RuleEngine :=
  {| attribute_catalog := ∅;
     function_registry :=
       <["length" := builtin_len]>
       (<["today" := builtin_today]>
       (<["lowercase" := builtin_lowercase]>
       (<["uppercase" := builtin_uppercase]> ∅))) |}.

Definition register_attribute (self : RuleEngine)
  (definition : AttributeDefinition) : RuleEngine :=
  {| attribute_catalog := <[name definition := definition]> (attribute_catalog self);
     function_registry := function_registry self |}.

Definition register_function (self : RuleEngine) (fname : string)
  (func : Callable) : RuleEngine :=
  {| attribute_catalog := attribute_catalog self;
     function_registry := <[fname := func]> (function_registry self) |}.

(** ** The tokenizer *)

(** The scanner behind [re.findall(pattern, rule_string, re.VERBOSE)].  The
    pattern has four alternatives, tried in this order at each position: a
    maximal run of characters other than white space, quotes and
    parentheses; a double-quoted string; a single-quoted string; one
    parenthesis.  A position where none matches is skipped.  The scanner is
    idle, inside a run, or inside a quoted string whose closing quote is
    known to exist. *)
Inductive scan_mode : Type :=
  | Idle
  | InRun (acc : list ascii)
  | InQuote (q : ascii) (acc : list ascii).

Definition is_plain (c : ascii) : bool :=
  negb (is_space c || bool_decide (c = dquote) || bool_decide (c = squote)
        || bool_decide (c = lparen) || bool_decide (c = rparen)).

Definition flush (m : scan_mode) : list string :=
  match m with
  | InRun acc => [str (rev acc)]
  | _ => []
  end.

Definition run_of (m : scan_mode) : list ascii :=
  match m with InRun acc => acc | _ => [] end.

Fixpoint findall (m : scan_mode) (s : list ascii) : list string :=
  match s with
  | [] => flush m
  | c :: r =>
      match m with
      | InQuote q acc =>
          if bool_decide (c = q)
          then str (q :: rev acc ++ [q]) :: findall Idle r
          else findall (InQuote q (c :: acc)) r
      | _ =>
          if is_plain c then findall (InRun (c :: run_of m)) r
          else flush m ++
            (if bool_decide (c = dquote) || bool_decide (c = squote)
             then if existsb (fun x => bool_decide (x = c)) r
                  then findall (InQuote c []) r
                  else findall Idle r
             else if bool_decide (c = lparen) || bool_decide (c = rparen)
             then str [c] :: findall Idle r
             else findall Idle r)
      end
  end.

Definition is_quoted (token : string) : bool :=
  (startswith token dquote && endswith token dquote)
  || (startswith token squote && endswith token squote).

(** [int(token)], or [float(token)] for a token that holds a dot; the
    token itself where that raises [ValueError]. *)
Definition numeric (token : string) : PyVal :=
  if contains "."%char token
  then match float_of_str token with
       | Some f => VFloat f
       | None => VStr token
       end
  else match int_of_str token with
       | Some z => VInt z
       | None => VStr token
       end.

(** [token.upper()] when it is one of the operator words.  An upper-cased
    token that leaves the code points below 256 is none of them. *)
Definition operator_word (token : string) : option string :=
  match py_upper token with
  | Some u =>
      if bool_decide (u ∈ ["AND"; "OR"; "IN"; "NOT IN"]) then Some u else None
  | None => None
  end.

(** The last branch of the loop: an operator word, a comparison symbol, a
    number, or the token itself. *)
Definition classify (token : string) : PyVal :=
  match operator_word token with
  | Some u => VStr u
  | None =>
      if bool_decide (token ∈ [">"; "<"; "="; "!="; ">="; "<="])
      then VStr token
      else numeric token
  end.

(** The [while] loop over the raw tokens. *)
Fixpoint process_tokens (tokens : list string) : list PyVal :=
  match tokens with
  | [] => []
  | token :: rest =>
      if is_quoted token then VStr (slice_1_m1 token) :: process_tokens rest
      else
        match rest with
        | next :: rest' =>
            if bool_decide (next = "(")
            then VStr (token +:+ "(") :: process_tokens rest'
            else classify token :: process_tokens rest
        | [] => classify token :: process_tokens rest
        end
  end.

(** [[token.strip() for token in re.findall(...)]]: the raw tokens that the
    loop reads. *)
Definition raw_tokens (rule_string : string) : list string :=
  map py_strip (findall Idle (chars rule_string)).

Definition tokenize (rule_string : string) : outcome (list PyVal) :=
  if bool_decide (rule_string = "")
  then Raise (RuleValidationError "Empty rule string")
  else Ok (process_tokens (raw_tokens rule_string)).

(** ** The parser *)

Definition comparison_node (field : string) (op : Operator) (value : PyVal)
  : Node :=
  mkNode COMPARISON value None None (Some op) (Some field) None None.

Definition operator_node (op : Operator) (l r : Node) : Node :=
  mkNode OPERATOR VNone (Some l) (Some r) (Some op) None None None.

Definition function_node (fname : string) (args : list (PyVal + Node))
  : Node :=
  mkNode FUNCTION VNone None None None None (Some fname) (Some args).

(** [token == s] for a string constant [s]. *)
Definition tok_eq (token : PyVal) (s : string) : bool :=
  match token with
  | VStr x => bool_decide (x = s)
  | _ => false
  end.

(** [isinstance(token, str) and '(' in token] *)
Definition is_marker (token : PyVal) : bool :=
  match token with
  | VStr x => contains lparen x
  | _ => false
  end.

(** [parse_function], with the [while] loop over the arguments as
    [parse_args].  The recursion follows the position, which the guard of
    the loop bounds by the number of tokens; [fuel] bounds its depth, and
    [None] is an exhausted [fuel]. *)
Fixpoint parse_function_fuel (fuel : nat) (self : RuleEngine)
  (tokens : list PyVal) (pos : nat) : option (outcome (Node * nat)) :=
  match fuel with
  | O => None
  | S fuel' =>
      match tokens !! pos with
      | Some (VStr marker) =>
          let func_name := slice_m1 marker in
          match function_registry self !! func_name with
          | None => Some (Raise (RuleValidationError
                                   ("Unknown function: " +:+ func_name)))
          | Some _ =>
              match parse_args fuel' self tokens (pos + 1) [] with
              | Some (Ok (args, current_pos)) =>
                  Some (Ok (function_node func_name args, current_pos + 1))
              | Some (Raise e) => Some (Raise e)
              | Some Unmodelled => Some Unmodelled
              | None => None
              end
          end
      | Some v => Some (Raise (TypeError ("'" +:+ type_name v
                                 +:+ "' object is not subscriptable")))
      | None => Some (Raise (PyException "IndexError"
                                         "list index out of range"))
      end
  end
with parse_args (fuel : nat) (self : RuleEngine) (tokens : list PyVal)
  (current_pos : nat) (args : list (PyVal + Node))
  : option (outcome (list (PyVal + Node) * nat)) :=
  match fuel with
  | O => None
  | S fuel' =>
      match tokens !! current_pos with
      | None => Some (Ok (args, current_pos))
      | Some token =>
          if tok_eq token ")" then Some (Ok (args, current_pos))
          else if tok_eq token ","
          then parse_args fuel' self tokens (current_pos + 1) args
          else if is_marker token
          then match parse_function_fuel fuel' self tokens current_pos with
               | Some (Ok (arg_node, new_pos)) =>
                   parse_args fuel' self tokens new_pos (args ++ [inr arg_node])
               | Some (Raise e) => Some (Raise e)
               | Some Unmodelled => Some Unmodelled
               | None => None
               end
          else parse_args fuel' self tokens (current_pos + 1)
                          (args ++ [inl token])
      end
  end.

Definition fuel_of (tokens : list PyVal) : nat := 2 * length tokens + 2.

Definition parse_function (self : RuleEngine) (tokens : list PyVal)
  (pos : nat) : outcome (Node * nat) :=
  default Unmodelled (parse_function_fuel (fuel_of tokens) self tokens pos).

Fixpoint parse_expression_fuel (fuel : nat) (self : RuleEngine)
  (tokens : list PyVal) (pos : nat) : option (outcome (Node * nat)) :=
  match fuel with
  | O => None
  | S fuel' =>
      match tokens !! pos with
      | None => Some (Raise (RuleValidationError "Unexpected end of expression"))
      | Some token =>
          if tok_eq token "("
          then match parse_expression_fuel fuel' self tokens (pos + 1) with
               | Some (Ok (node, next_pos)) =>
                   match tokens !! next_pos with
                   | Some closing =>
                       if tok_eq closing ")" then Some (Ok (node, next_pos + 1))
                       else Some (Raise (RuleValidationError
                                           "Missing closing parenthesis"))
                   | None => Some (Raise (RuleValidationError
                                            "Missing closing parenthesis"))
                   end
               | other => other
               end
          else if is_marker token then Some (parse_function self tokens pos)
          else
            match tokens !! (pos + 1) ≫= lookup_operator, tokens !! (pos + 2) with
            | Some operator, Some value =>
                match token with
                | VStr field =>
                    if bool_decide (is_Some (attribute_catalog self !! field))
                    then Some (Ok (comparison_node field operator value, pos + 3))
                    else Some (Raise (AttributeValidationError
                                        ("Unknown attribute: " +:+ field)))
                | _ =>
                    Some (shown ← py_str token;
                          Raise (AttributeValidationError
                                   ("Unknown attribute: " +:+ shown)))
                end
            | _, _ =>
                Some (shown ← py_str token;
                      Raise (RuleValidationError
                               ("Invalid expression at position " +:+ pretty pos
                                +:+ ": " +:+ shown)))
            end
      end
  end.

Definition parse_expression (self : RuleEngine) (tokens : list PyVal)
  (pos : nat) : outcome (Node * nat) :=
  default Unmodelled
    (parse_expression_fuel (S (length tokens)) self tokens pos).

(** [tokens.index(token)]: the first position that holds an equal token. *)
Fixpoint index_of (token : string) (tokens : list PyVal) : option nat :=
  match tokens with
  | [] => None
  | t :: r => if tok_eq t token then Some 0 else S <$> index_of token r
  end.

(** The [for] loop of [validate_rule_syntax] over [rest], with [tokens] the
    whole list; returns the stack left at the end. *)
Fixpoint validate_loop (tokens rest stack : list PyVal)
  : outcome (list PyVal) :=
  match rest with
  | [] => Ok stack
  | token :: rest' =>
      if tok_eq token "(" then validate_loop tokens rest' (stack ++ [token])
      else if tok_eq token ")"
      then match stack with
           | [] => Raise (RuleValidationError "Unmatched closing parenthesis")
           | _ => validate_loop tokens rest' (removelast stack)
           end
      else
        match token with
        | VStr op =>
            if bool_decide (is_Some (operators !! op))
            then match index_of op tokens with
                 | Some i =>
                     if (i + 1 <? length tokens)%nat
                     then validate_loop tokens rest' stack
                     else Raise (RuleValidationError
                            ("Operator " +:+ op +:+ " missing right operand"))
                 | None => Raise (PyException "ValueError"
                                    (repr_str op +:+ " is not in list"))
                 end
            else validate_loop tokens rest' stack
        | _ => validate_loop tokens rest' stack
        end
  end.

Definition validate_rule_syntax (tokens : list PyVal) : outcome unit :=
  stack ← validate_loop tokens tokens [];
  match stack with
  | [] => Ok tt
  | _ => Raise (RuleValidationError "Unmatched opening parenthesis")
  end.

(** [next_token in {'AND', 'OR'}] *)
Definition is_and_or (token : PyVal) : bool :=
  tok_eq token "AND" || tok_eq token "OR".

Definition create_rule (self : RuleEngine) (rule_string : string)
  : outcome Node :=
  tokens ← tokenize rule_string;
  _ ← validate_rule_syntax tokens;
  '(node, pos) ← parse_expression self tokens 0;
  match tokens !! pos with
  | Some next_token =>
      if is_and_or next_token
      then
        match lookup_operator next_token with
        | Some operator =>
            '(right_node, final_pos) ← parse_expression self tokens (pos + 1);
            Ok (operator_node operator node right_node)
        | None => Raise (PyException "KeyError"
                                  (default "" (py_repr next_token)))
        end
      else Ok node
  | None => Ok node
  end.

(** ** Attribute validation *)

Definition isinstance (value : PyVal) (t : PyType) : bool :=
  match t, value with
  | TInt, (VInt _ | VBool _) => true
  | TStr, VStr _ => true
  | TBool, VBool _ => true
  | TFloat, VFloat _ => true
  | _, _ => false
  end.

(** [data_type(value)]: the constructor call that coerces a value. *)
Definition construct (t : PyType) (value : PyVal) : outcome PyVal :=
  match t with
  | TInt =>
      match value with
      | VInt _ | VBool _ => Ok (VInt (default 0%Z (as_int value)))
      | VStr s =>
          match int_of_str s with
          | Some z => Ok (VInt z)
          | None => Raise (PyException "ValueError"
                      ("invalid literal for int() with base 10: " +:+ repr_str s))
          end
      | VFloat f =>
          match exact_of_double f with
          | EDyadic m e => Ok (VInt (dyadic_trunc m e))
          | EInf _ => Raise (PyException "OverflowError"
                               "cannot convert float infinity to integer")
          | ENan => Raise (PyException "ValueError"
                             "cannot convert float NaN to integer")
          end
      | _ => Raise (TypeError
               ("int() argument must be a string, a bytes-like object or a real number, not '"
                +:+ type_name value +:+ "'"))
      end
  | TStr => VStr <$> py_str value
  | TBool => VBool <$> py_bool value
  | TFloat =>
      match value with
      | VFloat _ => Ok value
      | VInt _ | VBool _ =>
          match double_of_Z (default 0%Z (as_int value)) with
          | S754_infinity _ =>
              Raise (PyException "OverflowError"
                                 "int too large to convert to float")
          | f => Ok (VFloat f)
          end
      | VStr s =>
          match float_of_str s with
          | Some f => Ok (VFloat f)
          | None => Raise (PyException "ValueError"
                      ("could not convert string to float: " +:+ repr_str s))
          end
      | _ =>
          Raise (TypeError
            ("float() argument must be a string or a real number, not '"
             +:+ type_name value +:+ "'"))
      end
  end.

(** The type check of [validate_attribute]: the value itself, or its
    coercion; any exception of the coercion becomes an attribute error. *)
Definition coerce (attr : string) (t : PyType) (value : PyVal)
  : outcome PyVal :=
  if isinstance value t then Ok value
  else match construct t value with
       | Ok v => Ok v
       | Raise _ => Raise (AttributeValidationError
                      ("Invalid type for " +:+ attr +:+ ". Expected "
                       +:+ PyType_name t))
       | Unmodelled => Unmodelled
       end.

(** The loop over [definition.constraints.items()]. *)
Fixpoint check_constraints (attr : string) (value : PyVal)
  (items : list (string * PyVal)) : outcome unit :=
  match items with
  | [] => Ok tt
  | (constraint, constraint_value) :: rest =>
      if bool_decide (constraint = "min") then
        below ← py_ord OLt value constraint_value;
        if below : bool then
          shown ← py_str constraint_value;
          Raise (AttributeValidationError
                   ("Value for " +:+ attr +:+ " below minimum: " +:+ shown))
        else check_constraints attr value rest
      else if bool_decide (constraint = "max") then
        above ← py_ord OGt value constraint_value;
        if above : bool then
          shown ← py_str constraint_value;
          Raise (AttributeValidationError
                   ("Value for " +:+ attr +:+ " above maximum: " +:+ shown))
        else check_constraints attr value rest
      else if bool_decide (constraint = "pattern") then Unmodelled
      else if bool_decide (constraint = "enum") then
        member ← py_in value constraint_value;
        if member : bool then check_constraints attr value rest
        else
          shown ← py_str constraint_value;
          Raise (AttributeValidationError
                   ("Value for " +:+ attr +:+ " must be one of: " +:+ shown))
      else check_constraints attr value rest
  end.

Definition validate_attribute (self : RuleEngine) (attr : string)
  (value : PyVal) : outcome PyVal :=
  match attribute_catalog self !! attr with
  | None => Raise (AttributeValidationError ("Unknown attribute: " +:+ attr))
  | Some definition =>
      value ← coerce attr (data_type definition) value;
      _ ← check_constraints attr value (default [] (constraints definition));
      Ok value
  end.

(** ** The evaluator *)

Fixpoint evaluate_function (self : RuleEngine) (node : Node)
  (data : gmap string PyVal) {struct node} : outcome PyVal :=
  match node_function node with
  | None => Raise (RuleValidationError "Unknown function: None")
  | Some fname =>
      match function_registry self !! fname with
      | None => Raise (RuleValidationError ("Unknown function: " +:+ fname))
      | Some func =>
          match node_args node with
          | None => Raise (TypeError "'NoneType' object is not iterable")
          | Some args =>
              evaluated_args ←
                (fix each (args : list (PyVal + Node)) : outcome (list PyVal) :=
                   match args with
                   | [] => Ok []
                   | arg :: rest =>
                       v ← match arg with
                           | inr sub => evaluate_function self sub data
                           | inl (VStr key) => Ok (default (VStr key) (data !! key))
                           | inl other => Ok other
                           end;
                       vs ← each rest;
                       Ok (v :: vs)
                   end) args;
              func evaluated_args
          end
      end
  end.

(** The [except Exception] clause of [evaluate_rule]. *)
Definition rewrap {A : Type} (r : outcome A) : outcome A :=
  match r with
  | Raise e => Raise (RuleValidationError
                        ("Error evaluating rule: " +:+ exn_str e))
  | other => other
  end.

(** The comparison of a validated value with the literal of the node. *)
Definition compare (op : option Operator) (value literal : PyVal)
  : outcome bool :=
  match op with
  | Some GT => py_ord OGt value literal
  | Some LT => py_ord OLt value literal
  | Some EQ => py_eq value literal
  | Some NE => negb <$> py_eq value literal
  | Some GTE => py_ord OGe value literal
  | Some LTE => py_ord OLe value literal
  | Some IN => py_in value literal
  | Some NOT_IN => negb <$> py_in value literal
  | _ => Ok false
  end.

(** The body of the [try] block of [evaluate_rule]; [recurse] is the call
    of [self.evaluate_rule] on a child. *)
Definition evaluate_rule_try (self : RuleEngine)
  (recurse : option Node -> outcome bool) (node : Node)
  (data : gmap string PyVal) : outcome bool :=
  match node_type node with
  | COMPARISON =>
      match node_field node with
      | None => Ok false
      | Some field =>
          match data !! field with
          | None =>
              match attribute_catalog self !! field with
              | Some definition =>
                  if required definition
                  then Raise (AttributeValidationError
                                ("Required attribute missing: " +:+ field))
                  else Ok false
              | None => Ok false
              end
          | Some found =>
              value ← validate_attribute self field found;
              compare (node_operator node) value (node_value node)
          end
      end
  | OPERATOR =>
      left_result ← recurse (node_left node);
      right_result ← recurse (node_right node);
      match node_operator node with
      | Some AND => Ok (left_result && right_result)
      | Some OR => Ok (left_result || right_result)
      | _ => Ok false
      end
  | FUNCTION => evaluate_function self node data ≫= py_bool
  end.

(** [self.evaluate_rule(None, data)]: reading [node.type] fails inside the
    [try] block. *)
Definition evaluate_none : outcome bool :=
  rewrap (Raise (PyException "AttributeError"
                   "'NoneType' object has no attribute 'type'")).

Fixpoint evaluate_rule (self : RuleEngine) (node : Node)
  (data : gmap string PyVal) {struct node} : outcome bool :=
  rewrap (evaluate_rule_try self
            (fun child =>
               match child with
               | Some sub => evaluate_rule self sub data
               | None => evaluate_none
               end) node data).

(** [self.evaluate_rule(child, data)] for a child of a node. *)
Definition evaluate_child (self : RuleEngine) (child : option Node)
  (data : gmap string PyVal) : outcome bool :=
  match child with
  | Some sub => evaluate_rule self sub data
  | None => evaluate_none
  end.

(** ** The engine of [test_rule_engine] *)

Definition age_definition : AttributeDefinition :=
  {| name := "age"; data_type := TInt;
     constraints := Some [("min", VInt 0); ("max", VInt 120)];
     description := ""; required := true |}.

Definition department_definition : AttributeDefinition :=
  {| name := "department"; data_type := TStr;
     constraints := Some [("enum", VList [VStr "Sales"; VStr "Marketing";
                                          VStr "Engineering"])];
     description := ""; required := true |}.

Definition test_engine : RuleEngine :=
  register_attribute (register_attribute new_engine age_definition)
                     department_definition.

Definition record (fields : list (string * PyVal)) : gmap string PyVal :=
  list_to_map fields.

(** ** Vocabulary of the properties *)

Definition sales_rule : string := "age > 30 AND department = 'Sales'".

Definition sales_ast : Node :=
  operator_node AND (comparison_node "age" GT (VInt 30))
                    (comparison_node "department" EQ (VStr "Sales")).

Definition enum_failure : string :=
  "Value for department must be one of: ['Sales', 'Marketing', 'Engineering']".

Definition length_rule : string := "length(name) > 5".

Definition status_rule : string :=
  "status IN (" +:+ str [dquote] +:+ "active" +:+ str [dquote] +:+ ", "
  +:+ str [dquote] +:+ "pending" +:+ str [dquote] +:+ ")".

Definition junior_in_support : gmap string PyVal :=
  record [("age", VInt 20); ("department", VStr "Support")].

(** What the logical operator computes from two booleans. *)
Definition connective (op : Operator) (a b : bool) : bool :=
  match op with
  | AND => a && b
  | OR => a || b
  | _ => false
  end.

(** The constraints are [min] and [max] entries only. *)
Definition bounds_only (items : list (string * PyVal)) : Prop :=
  Forall (fun kb => kb.1 = "min" \/ kb.1 = "max") items.

(** Two values that Python orders: two numbers, or two strings. *)
Definition same_kind (v b : PyVal) : Prop :=
  (is_Some (exact_of v) /\ is_Some (exact_of b))
  \/ (exists x y, v = VStr x /\ b = VStr y).

(** Every bound is of the kind of the value, and prints within the limit
    on the digits of an integer. *)
Definition bounds_comparable (v : PyVal) (items : list (string * PyVal))
  : Prop :=
  Forall (fun kb => same_kind v kb.2 /\ is_Some (py_repr kb.2)) items.

(** [min <= value] for every [min] entry and [value <= max] for every
    [max] entry, with the [<=] of Python. *)
Definition within_bounds (value : PyVal) (items : list (string * PyVal))
  : Prop :=
  Forall (fun kb =>
            (kb.1 = "min" -> py_ord OLe kb.2 value = Ok true)
            /\ (kb.1 = "max" -> py_ord OLe value kb.2 = Ok true)) items.

(** [value < min] for some [min] entry or [value > max] for some [max]
    entry. *)
Definition outside_bounds (value : PyVal) (items : list (string * PyVal))
  : Prop :=
  Exists (fun kb =>
            (kb.1 = "min" /\ py_ord OLt value kb.2 = Ok true)
            \/ (kb.1 = "max" /\ py_ord OGt value kb.2 = Ok true)) items.

(** Whether the [while] loop of [tokenize] arrives at the raw token of
    index [i]: it does not when this token is the parenthesis that the
    fusion at the index before has consumed. *)
Fixpoint arrives (tokens : list string) (i : nat) : bool :=
  match tokens, i with
  | [], _ => false
  | _ :: _, O => true
  | token :: rest, S i' =>
      if is_quoted token then arrives rest i'
      else
        match rest with
        | next :: rest' =>
            if bool_decide (next = "(")
            then match i' with
                 | O => false
                 | S i'' => arrives rest' i''
                 end
            else arrives rest i'
        | [] => false
        end
  end.

(** The floats -0.5 and 3.7. *)
Definition minus_half : spec_float := double_of_decimal true 5 (-1).
Definition three_point_seven : spec_float := double_of_decimal false 37 (-1).

(** An attribute with bounds and an [enum], one whose [min] is a string,
    and one whose [min] has 4301 digits. *)
Definition graded_engine : RuleEngine :=
  register_attribute new_engine
    {| name := "grade"; data_type := TInt;
       constraints := Some [("min", VInt 0); ("max", VInt 120);
                            ("enum", VList [VInt 1; VInt 2])];
       description := ""; required := true |}.

Definition mistyped_engine : RuleEngine :=
  register_attribute new_engine
    {| name := "age"; data_type := TInt;
       constraints := Some [("min", VStr "0"); ("max", VInt 120)];
       description := ""; required := true |}.

Definition huge_engine : RuleEngine :=
  register_attribute new_engine
    {| name := "age"; data_type := TInt;
       constraints := Some [("min", VInt (10 ^ 4300))];
       description := ""; required := true |}.

Ltac solve_bounds :=
  repeat first
    [ reflexivity | discriminate
    | apply Forall_cons | apply Forall_nil
    | split | intros _ | intros [=]
    | (vm_compute; reflexivity) ].

(** ** Vocabulary of the further properties *)

(** The number of tokens equal to the string [s]. *)
Fixpoint count_tok (s : string) (tokens : list PyVal) : nat :=
  match tokens with
  | [] => 0
  | t :: r => (if tok_eq t s then 1 else 0) + count_tok s r
  end.

(** An argument token that the loop of [parse_function] keeps as it is:
    neither a closing parenthesis, nor a comma, nor a marker. *)
Definition plain_arg (token : PyVal) : Prop :=
  tok_eq token ")" = false /\ tok_eq token "," = false
  /\ is_marker token = false.

Definition arg_ok (call_ok : Node -> Prop) (arg : PyVal + Node) : Prop :=
  match arg with
  | inl token => plain_arg token
  | inr sub => call_ok sub
  end.

(** A tree of calls as [parse_function] builds them: every call is a
    function node that names a registered function, with plain tokens and
    such calls as arguments. *)
Fixpoint well_formed_call (self : RuleEngine) (node : Node) {struct node}
  : Prop :=
  node_type node = FUNCTION
  /\ match node_function node with
     | Some fname => is_Some (function_registry self !! fname)
     | None => False
     end
  /\ match node_args node with
     | Some args =>
         (fix each (args : list (PyVal + Node)) : Prop :=
            match args with
            | [] => True
            | arg :: rest => arg_ok (well_formed_call self) arg /\ each rest
            end) args
     | None => False
     end.

(** What [parse_expression] returns: a comparison on a registered
    attribute, or a tree of calls. *)
Definition parsed_leaf (self : RuleEngine) (node : Node) : Prop :=
  (exists field op value,
      node = comparison_node field op value
      /\ is_Some (attribute_catalog self !! field))
  \/ well_formed_call self node.

(** A string of white space only. *)
Definition blank (s : string) : bool := forallb is_space (chars s).

(** A string literal of the rule language: [body] between two quotes
    [q]. *)
Definition quoted (q : ascii) (body : string) : string :=
  str (q :: chars body ++ [q]).

(** The record fields that a tree can read under the key [key]: the field
    of a node, a string argument of a call, and the same in the children
    and in the calls among the arguments. *)
Fixpoint mentions (key : string) (node : Node) {struct node} : Prop :=
  node_field node = Some key
  \/ match node_left node with Some l => mentions key l | None => False end
  \/ match node_right node with Some r => mentions key r | None => False end
  \/ match node_args node with
     | Some args =>
         (fix any (args : list (PyVal + Node)) : Prop :=
            match args with
            | [] => False
            | inl token :: rest => token = VStr key \/ any rest
            | inr sub :: rest => mentions key sub \/ any rest
            end) args
     | None => False
     end.

(** * Properties *)

(** ** Unfolding and basic facts *)

Lemma evaluate_rule_unfold self node data :
  evaluate_rule self node data =
  rewrap (evaluate_rule_try self (fun child => evaluate_child self child data)
                            node data).
Proof. destruct node; reflexivity. Qed.

Lemma chars_append (a b : string) : chars (a +:+ b) = chars a ++ chars b.
Proof.
  unfold chars. induction a as [|c a IH]; simpl; [reflexivity|].
  now rewrite IH.
Qed.

Lemma is_prefix_refl (p : list ascii) : is_prefix p p = true.
Proof.
  induction p as [|c p IH]; simpl; [reflexivity|].
  rewrite bool_decide_eq_true_2 by reflexivity. exact IH.
Qed.

Lemma is_infix_suffix (a p : list ascii) : is_infix p (a ++ p) = true.
Proof.
  induction a as [|c a IH]; simpl.
  - destruct p; simpl; rewrite ?is_prefix_refl, ?bool_decide_eq_true_2;
      reflexivity.
  - rewrite IH. apply orb_true_r.
Qed.

Lemma substring_of_suffix (a b : string) : substring_of b (a +:+ b) = true.
Proof. unfold substring_of. rewrite chars_append. apply is_infix_suffix. Qed.

(** ** Scenarios on concrete rules *)

(** C1.  With [age] registered as int with min 0 and max 120 and
    [department] as str with the enum Sales, Marketing, Engineering, the
    rule [age > 30 AND department = 'Sales'] is created, evaluates to true
    on age 35 in Sales and to false on age 20 in Sales, and on age 35 in
    Support fails with the rule-evaluation error whose message carries the
    message of the enum violation that [validate_attribute] raises as an
    attribute error. *)
Theorem sales_rule_scenario :
  create_rule test_engine sales_rule = Ok sales_ast
  /\ evaluate_rule test_engine sales_ast
       (record [("age", VInt 35); ("department", VStr "Sales")]) = Ok true
  /\ evaluate_rule test_engine sales_ast
       (record [("age", VInt 20); ("department", VStr "Sales")]) = Ok false
  /\ validate_attribute test_engine "department" (VStr "Support")
     = Raise (AttributeValidationError enum_failure)
  /\ evaluate_rule test_engine sales_ast
       (record [("age", VInt 35); ("department", VStr "Support")])
     = Raise (RuleValidationError
                ("Error evaluating rule: Error evaluating rule: "
                 +:+ enum_failure)).
Proof. repeat split; vm_compute; reflexivity. Qed.

(** C2.  The tokens of [length(name) > 5] are the marker [length(], then
    [name], [)], [>] and 5: the parenthesis check meets a closing
    parenthesis on an empty stack, and [create_rule] fails for every
    engine. *)
Theorem length_rule_rejected (self : RuleEngine) :
  tokenize length_rule
  = Ok [VStr "length("; VStr "name"; VStr ")"; VStr ">"; VInt 5]
  /\ create_rule self length_rule
     = Raise (RuleValidationError "Unmatched closing parenthesis").
Proof. split; vm_compute; reflexivity. Qed.

(** Past the parenthesis check the rule would fare no better: the parser
    stops after the call, the comparison with 5 is dropped, and the call
    alone is true for a name of three letters. *)
Lemma length_call_alone :
  parse_expression test_engine
    [VStr "length("; VStr "name"; VStr ")"; VStr ">"; VInt 5] 0
  = Ok (function_node "length" [inl (VStr "name")], 3)
  /\ evaluate_rule test_engine (function_node "length" [inl (VStr "name")])
       (record [("name", VStr "Bob")]) = Ok true.
Proof. split; vm_compute; reflexivity. Qed.

(** C3.  In the rule [status IN ("active", "pending")] the word [IN] is
    fused with the parenthesis that follows it: the closing parenthesis is
    left unmatched and [create_rule] fails for every engine, whatever the
    catalog holds. *)
Theorem status_rule_rejected (self : RuleEngine) :
  tokenize status_rule
  = Ok [VStr "status"; VStr "IN("; VStr "active"; VStr ","; VStr "pending";
        VStr ")"]
  /\ create_rule self status_rule
     = Raise (RuleValidationError "Unmatched closing parenthesis").
Proof. split; vm_compute; reflexivity. Qed.

(** C8.  The rule [length(] holds an opening parenthesis that nothing
    closes, yet the parenthesis check never sees it, fused as it is into
    the marker: [create_rule] returns a call of [length] without
    arguments. *)
Theorem unmatched_open_accepted :
  tokenize "length(" = Ok [VStr "length("]
  /\ validate_rule_syntax [VStr "length("] = Ok tt
  /\ create_rule new_engine "length(" = Ok (function_node "length" []).
Proof. repeat split; vm_compute; reflexivity. Qed.

(** ** Logical operators *)

Section Logical.
Context (self : RuleEngine) (data : gmap string PyVal).

Lemma evaluate_logical node :
  node_type node = OPERATOR ->
  evaluate_rule self node data =
  rewrap (left_result ← evaluate_child self (node_left node) data;
          right_result ← evaluate_child self (node_right node) data;
          match node_operator node with
          | Some AND => Ok (left_result && right_result)
          | Some OR => Ok (left_result || right_result)
          | _ => Ok false
          end).
Proof.
  intros Ht. rewrite evaluate_rule_unfold. unfold evaluate_rule_try.
  now rewrite Ht.
Qed.
End Logical.

(** C4.  A logical node with operator AND or OR evaluates both children,
    left then right, whatever the left result is.  When both return, the
    node returns their conjunction for AND (true iff both are true) and
    their disjunction for OR (true iff one at least is true).  When the
    left child returns and the right child raises, the failure of the right
    child propagates, also after a false left result under AND and a true
    one under OR. *)
Theorem logical_node_no_short_circuit
  (self : RuleEngine) (data : gmap string PyVal) (node l r : Node)
  (op : Operator) :
  node_type node = OPERATOR ->
  node_left node = Some l ->
  node_right node = Some r ->
  node_operator node = Some op ->
  op = AND \/ op = OR ->
  (forall a b,
      evaluate_rule self l data = Ok a ->
      evaluate_rule self r data = Ok b ->
      evaluate_rule self node data = Ok (connective op a b)
      /\ (op = AND ->
          (evaluate_rule self node data = Ok true <-> a = true /\ b = true))
      /\ (op = OR ->
          (evaluate_rule self node data = Ok true <-> a = true \/ b = true)))
  /\ (forall a e,
      evaluate_rule self l data = Ok a ->
      evaluate_rule self r data = Raise e ->
      evaluate_rule self node data
      = Raise (RuleValidationError ("Error evaluating rule: " +:+ exn_str e)))
  /\ (forall e,
      evaluate_rule self l data = Raise e ->
      evaluate_rule self node data
      = Raise (RuleValidationError ("Error evaluating rule: " +:+ exn_str e))).
Proof.
  intros Ht Hl Hr Hop Hcases.
  rewrite (evaluate_logical self data node Ht), Hl, Hr, Hop. simpl.
  split; [|split].
  - intros a b -> ->. simpl.
    destruct Hcases as [-> | ->]; simpl; (split; [reflexivity|]); split;
      intros Hx; try discriminate Hx; split.
    + intros [= Hab]. now apply andb_true_iff.
    + intros Hab. f_equal. now apply andb_true_iff.
    + intros [= Hab]. now apply orb_true_iff.
    + intros Hab. f_equal. now apply orb_true_iff.
  - intros a e -> ->. reflexivity.
  - intros e ->. reflexivity.
Qed.

Lemma logical_node_no_short_circuit_witness :
  evaluate_rule test_engine (comparison_node "age" GT (VInt 30))
                junior_in_support = Ok false
  /\ evaluate_rule test_engine sales_ast junior_in_support
     = Raise (RuleValidationError
                ("Error evaluating rule: Error evaluating rule: "
                 +:+ enum_failure)).
Proof.
  split; [vm_compute; reflexivity|].
  refine (proj1 (proj2 (logical_node_no_short_circuit test_engine
            junior_in_support sales_ast _ _ AND eq_refl eq_refl eq_refl
            eq_refl (or_introl eq_refl))) false
            (RuleValidationError ("Error evaluating rule: " +:+ enum_failure))
            _ _);
    vm_compute; reflexivity.
Defined.

(** ** Failures of the evaluator *)

(** Whatever the [try] block raises leaves [evaluate_rule] as a
    [RuleValidationError]. *)
Lemma rewrap_raises {A : Type} (r : outcome A) (e : exn) :
  rewrap r = Raise e ->
  exists cause,
    r = Raise cause
    /\ e = RuleValidationError ("Error evaluating rule: " +:+ exn_str cause).
Proof.
  destruct r as [a|cause|]; simpl; intros H; try discriminate H.
  injection H as <-. now exists cause.
Qed.

Section MissingField.
Context (self : RuleEngine) (data : gmap string PyVal).
Context (node : Node) (field : string).
Hypothesis Hcomparison : node_type node = COMPARISON.
Hypothesis Hfield : node_field node = Some field.
Hypothesis Habsent : data !! field = None.

Lemma evaluate_absent_field :
  evaluate_rule self node data =
  rewrap match attribute_catalog self !! field with
         | Some definition =>
             if required definition
             then Raise (AttributeValidationError
                           ("Required attribute missing: " +:+ field))
             else Ok false
         | None => Ok false
         end.
Proof.
  rewrite evaluate_rule_unfold. unfold evaluate_rule_try.
  now rewrite Hcomparison, Hfield, Habsent.
Qed.
End MissingField.

(** C5, as amended.  For a comparison node whose field is absent from the
    record: when the catalog holds the field with [required] set, the
    [try] block raises the attribute error [Required attribute missing],
    and [evaluate_rule] fails with the rule-evaluation error that carries
    this message; when the catalog does not hold the field, or holds it
    with [required] unset, [evaluate_rule] returns false. *)
Theorem absent_field_evaluation
  (self : RuleEngine) (data : gmap string PyVal) (node : Node)
  (field : string) :
  node_type node = COMPARISON ->
  node_field node = Some field ->
  data !! field = None ->
  (forall definition,
      attribute_catalog self !! field = Some definition ->
      required definition = true ->
      evaluate_rule_try self (fun child => evaluate_child self child data)
                        node data
      = Raise (AttributeValidationError
                 ("Required attribute missing: " +:+ field))
      /\ evaluate_rule self node data
         = Raise (RuleValidationError
                    ("Error evaluating rule: Required attribute missing: "
                     +:+ field)))
  /\ (attribute_catalog self !! field = None ->
      evaluate_rule self node data = Ok false)
  /\ (forall definition,
      attribute_catalog self !! field = Some definition ->
      required definition = false ->
      evaluate_rule self node data = Ok false).
Proof.
  intros Ht Hf Ha.
  rewrite (evaluate_absent_field self data node field Ht Hf Ha).
  unfold evaluate_rule_try. rewrite Ht, Hf, Ha.
  split; [|split].
  - intros definition -> ->. split; reflexivity.
  - intros ->. reflexivity.
  - intros definition -> ->. reflexivity.
Qed.

Lemma absent_field_evaluation_witness :
  evaluate_rule test_engine (comparison_node "age" GT (VInt 30)) ∅
  = Raise (RuleValidationError
             "Error evaluating rule: Required attribute missing: age")
  /\ evaluate_rule test_engine (comparison_node "salary" GT (VInt 30)) ∅
     = Ok false.
Proof.
  split.
  - refine (proj2 (proj1 (absent_field_evaluation test_engine ∅
              (comparison_node "age" GT (VInt 30)) "age"
              eq_refl eq_refl eq_refl) age_definition _ eq_refl)).
    vm_compute; reflexivity.
  - refine (proj1 (proj2 (absent_field_evaluation test_engine ∅
              (comparison_node "salary" GT (VInt 30)) "salary"
              eq_refl eq_refl eq_refl)) _).
    vm_compute; reflexivity.
Defined.

(** C5, as stated, fails: with [age] registered and required and absent
    from the record, the failure that leaves [evaluate_rule] is not an
    attribute error. *)
Lemma absent_required_field_not_attribute_error :
  ~ (forall (self : RuleEngine) (data : gmap string PyVal) (node : Node)
            (field : string) (definition : AttributeDefinition),
        node_type node = COMPARISON ->
        node_field node = Some field ->
        data !! field = None ->
        attribute_catalog self !! field = Some definition ->
        required definition = true ->
        exists msg,
          evaluate_rule self node data = Raise (AttributeValidationError msg)).
Proof.
  intros H.
  destruct (H test_engine ∅ (comparison_node "age" GT (VInt 30)) "age"
              age_definition eq_refl eq_refl (lookup_empty _)
              ltac:(vm_compute; reflexivity) eq_refl) as [msg Hmsg].
  vm_compute in Hmsg. discriminate Hmsg.
Qed.

(** C6.  A failure raised in the [try] block of [evaluate_rule], of
    whatever kind, reaches the caller as a [RuleValidationError] whose
    message is [Error evaluating rule: ] followed by the message of the
    original failure; and every failure of [evaluate_rule] arises so: no
    other kind of exception leaves it. *)
Theorem evaluation_failures_collapse
  (self : RuleEngine) (node : Node) (data : gmap string PyVal) :
  let body := evaluate_rule_try self
                (fun child => evaluate_child self child data) node data in
  (forall cause,
      body = Raise cause ->
      evaluate_rule self node data
      = Raise (RuleValidationError
                 ("Error evaluating rule: " +:+ exn_str cause)))
  /\ (forall e,
      evaluate_rule self node data = Raise e ->
      exists cause,
        body = Raise cause
        /\ e = RuleValidationError ("Error evaluating rule: " +:+ exn_str cause)
        /\ substring_of (exn_str cause) (exn_str e) = true).
Proof.
  intros body. rewrite evaluate_rule_unfold. fold body. split.
  - intros cause ->. reflexivity.
  - intros e He. apply rewrap_raises in He as (cause & Hbody & ->).
    exists cause. repeat split; [exact Hbody|].
    simpl. apply substring_of_suffix.
Qed.

Lemma evaluation_failures_collapse_witness :
  evaluate_rule test_engine (comparison_node "department" EQ (VStr "Sales"))
    (record [("department", VStr "Support")])
  = Raise (RuleValidationError ("Error evaluating rule: " +:+ enum_failure)).
Proof.
  refine (proj1 (evaluation_failures_collapse test_engine
            (comparison_node "department" EQ (VStr "Sales"))
            (record [("department", VStr "Support")]))
          (AttributeValidationError enum_failure) _).
  vm_compute; reflexivity.
Defined.

(** ** Bounds of an attribute *)

Lemma construct_isinstance t value v :
  construct t value = Ok v -> isinstance v t = true.
Proof.
  destruct t; simpl.
  - destruct value as [| | |f|s|]; try discriminate; try (now intros [= <-]).
    + destruct (exact_of_double f); try discriminate. now intros [= <-].
    + destruct (int_of_str s); [|discriminate]. now intros [= <-].
  - destruct (py_str value); simpl; try discriminate. now intros [= <-].
  - destruct (py_bool value); simpl; try discriminate. now intros [= <-].
  - destruct value as [|b|z|f|s|]; try discriminate; try (now intros [= <-]).
    + destruct (double_of_Z _); try discriminate; now intros [= <-].
    + destruct (double_of_Z _); try discriminate; now intros [= <-].
    + destruct (float_of_str s); [|discriminate]. now intros [= <-].
Qed.

Lemma coerce_isinstance attr t value v :
  coerce attr t value = Ok v -> isinstance v t = true.
Proof.
  unfold coerce. destruct (isinstance value t) eqn:Hi.
  - now intros [= <-].
  - destruct (construct t value) eqn:Hc; try discriminate.
    intros [= <-]. exact (construct_isinstance _ _ _ Hc).
Qed.

Lemma dyadic_compare_antisym m1 e1 m2 e2 :
  dyadic_compare m2 e2 m1 e1 = CompOpp (dyadic_compare m1 e1 m2 e2).
Proof.
  unfold dyadic_compare. rewrite (Z.min_comm e2 e1). apply Z.compare_antisym.
Qed.

Lemma exact_compare_antisym x y c :
  exact_compare x y = Some c -> exact_compare y x = Some (CompOpp c).
Proof.
  destruct x as [|s1|m1 e1], y as [|s2|m2 e2]; simpl; try discriminate;
    try (destruct s1; try destruct s2; now intros [= <-]);
    try (destruct s2; now intros [= <-]).
  intros [= <-]. now rewrite dyadic_compare_antisym.
Qed.

(** On two numbers, the strict comparisons of the code fail where [<=]
    holds the other way round. *)
Lemma ord_exact_strict x y :
  (ord_exact OLe y x = true -> ord_exact OLt x y = false)
  /\ (ord_exact OLe x y = true -> ord_exact OGt x y = false).
Proof.
  unfold ord_exact.
  destruct (exact_compare x y) as [c|] eqn:Hxy.
  - rewrite (exact_compare_antisym _ _ _ Hxy). destruct c; simpl; auto.
  - split; [|reflexivity]. now destruct (exact_compare y x) as [[]|].
Qed.

Lemma ord_same_kind v b :
  same_kind v b ->
  exists below above,
    py_ord OLt v b = Ok below /\ py_ord OGt v b = Ok above
    /\ (py_ord OLe b v = Ok true -> below = false)
    /\ (py_ord OLe v b = Ok true -> above = false).
Proof.
  intros [[[x Hx] [y Hy]] | (x & y & -> & ->)].
  - unfold py_ord. rewrite Hx, Hy.
    destruct (ord_exact_strict x y) as [Hlt Hgt].
    do 2 eexists. repeat split; intros [= H]; auto.
  - unfold py_ord. simpl. do 2 eexists. repeat split; intros [= H].
    + now apply negb_true_iff in H.
    + now apply negb_true_iff in H.
Qed.

Lemma check_constraints_bounds attr v items :
  bounds_only items -> bounds_comparable v items ->
  (within_bounds v items -> check_constraints attr v items = Ok tt)
  /\ (outside_bounds v items ->
      exists msg,
        check_constraints attr v items = Raise (AttributeValidationError msg)).
Proof.
  intros Hkeys Hcomp.
  induction items as [|[k b] items IH]; simpl.
  - split; [reflexivity|]. intros H. inversion H.
  - inversion Hkeys as [|? ? Hk Hkeys']; subst.
    inversion Hcomp as [|? ? [Hkind [shown Hshown]] Hcomp']; subst.
    simpl in Hk, Hkind, Hshown.
    destruct (IH Hkeys' Hcomp') as [IHin IHout].
    destruct (ord_same_kind v b Hkind)
      as (below & above & Hlt & Hgt & Hge & Hle).
    assert (Hstr : exists text, py_str b = Ok text).
    { unfold py_str. rewrite Hshown. destruct b; eauto. }
    destruct Hstr as [text Htext].
    destruct Hk as [-> | ->]; simpl; rewrite ?Hlt, ?Hgt; simpl.
    + split.
      * intros Hin. inversion Hin as [|? ? [Hmin _] Hin']; subst.
        rewrite (Hge (Hmin eq_refl)). now apply IHin.
      * intros Hout. destruct below.
        -- rewrite Htext. simpl. eauto.
        -- inversion Hout as [? ? Hhead | ? ? Hout']; subst;
             [|now apply IHout].
           destruct Hhead as [[_ Hx] | [Hx _]]; simpl in Hx;
             [congruence | discriminate Hx].
    + split.
      * intros Hin. inversion Hin as [|? ? [_ Hmax] Hin']; subst.
        rewrite (Hle (Hmax eq_refl)). now apply IHin.
      * intros Hout. destruct above.
        -- rewrite Htext. simpl. eauto.
        -- inversion Hout as [? ? Hhead | ? ? Hout']; subst;
             [|now apply IHout].
           destruct Hhead as [[Hx _] | [_ Hx]]; simpl in Hx;
             [discriminate Hx | congruence].
Qed.

(** C7, as amended.  For an attribute whose constraints are [min] and
    [max] bounds only, and a value that is of the declared type or that
    the constructor of this type coerces, let [v] be the value after the
    coercion, and let every bound be of the kind of [v], a number or a
    string, and print within the limit on the digits of an integer.  Then
    [validate_attribute] returns [v] when [v] lies within the bounds, both
    inclusive, and fails with an attribute error when [v] is below a [min]
    or above a [max]. *)
Theorem validate_attribute_bounds
  (self : RuleEngine) (attr : string) (definition : AttributeDefinition)
  (items : list (string * PyVal)) (value v : PyVal) :
  attribute_catalog self !! attr = Some definition ->
  constraints definition = Some items ->
  bounds_only items ->
  coerce attr (data_type definition) value = Ok v ->
  bounds_comparable v items ->
  (within_bounds v items -> validate_attribute self attr value = Ok v)
  /\ (outside_bounds v items ->
      exists msg,
        validate_attribute self attr value
        = Raise (AttributeValidationError msg)).
Proof.
  intros Hcat Hitems Hkeys Hco Hcomp.
  unfold validate_attribute. rewrite Hcat, Hco, Hitems. simpl.
  destruct (check_constraints_bounds attr v items Hkeys Hcomp) as [Hin Hout].
  split.
  - intros H. now rewrite (Hin H).
  - intros H. destruct (Hout H) as [msg ->]. now exists msg.
Qed.

Lemma validate_attribute_bounds_witness :
  (exists msg, validate_attribute test_engine "age" (VInt (-1))
               = Raise (AttributeValidationError msg))
  /\ validate_attribute test_engine "age" (VInt 0) = Ok (VInt 0)
  /\ validate_attribute test_engine "age" (VInt 120) = Ok (VInt 120)
  /\ (exists msg, validate_attribute test_engine "age" (VInt 121)
                  = Raise (AttributeValidationError msg))
  /\ validate_attribute test_engine "age" (VStr "35") = Ok (VInt 35)
  /\ validate_attribute test_engine "age" (VFloat three_point_seven)
     = Ok (VInt 3).
Proof.
  pose proof (fun value v Hco =>
    validate_attribute_bounds test_engine "age" age_definition
      [("min", VInt 0); ("max", VInt 120)] value v
      ltac:(vm_compute; reflexivity) eq_refl
      ltac:(solve_bounds; auto) Hco) as bounds.
  assert (Hcomp : forall z, bounds_comparable (VInt z)
                              [("min", VInt 0); ("max", VInt 120)]).
  { intros z. repeat constructor; simpl; eauto. }
  split; [|split; [|split; [|split; [|split]]]].
  - apply (proj2 (bounds (VInt (-1)) (VInt (-1)) eq_refl (Hcomp _))).
    apply Exists_cons_hd. left. solve_bounds.
  - apply (proj1 (bounds (VInt 0) (VInt 0) eq_refl (Hcomp _))). solve_bounds.
  - apply (proj1 (bounds (VInt 120) (VInt 120) eq_refl (Hcomp _))).
    solve_bounds.
  - apply (proj2 (bounds (VInt 121) (VInt 121) eq_refl (Hcomp _))).
    apply Exists_cons_tl, Exists_cons_hd. right. solve_bounds.
  - apply (proj1 (bounds (VStr "35") (VInt 35)
                    ltac:(vm_compute; reflexivity) (Hcomp _))).
    solve_bounds.
  - apply (proj1 (bounds (VFloat three_point_seven) (VInt 3)
                    ltac:(vm_compute; reflexivity) (Hcomp _))).
    solve_bounds.
Defined.

(** C7, as stated, fails.  The bounds are checked on the value after the
    coercion, which is what is returned: -0.5 is below the [min] of [age]
    and is accepted as 0, and 3.7 is returned as 3.  A value within the
    bounds is rejected by a further constraint.  And a violated bound
    fails otherwise than with an attribute error when it is not of the
    kind of the value, or has more digits than can be printed. *)
Lemma bounds_checked_after_coercion :
  (py_ord OLt (VFloat minus_half) (VInt 0) = Ok true
   /\ validate_attribute test_engine "age" (VFloat minus_half) = Ok (VInt 0))
  /\ validate_attribute test_engine "age" (VFloat three_point_seven)
     = Ok (VInt 3)
  /\ (within_bounds (VInt 50) [("min", VInt 0); ("max", VInt 120)]
      /\ exists msg, validate_attribute graded_engine "grade" (VInt 50)
                     = Raise (AttributeValidationError msg))
  /\ validate_attribute mistyped_engine "age" (VInt 121)
     = Raise (TypeError
                "'<' not supported between instances of 'int' and 'str'")
  /\ (py_ord OLt (VInt 0) (VInt (10 ^ 4300)) = Ok true
      /\ exists msg, validate_attribute huge_engine "age" (VInt 0)
                     = Raise (PyException "ValueError" msg)).
Proof.
  repeat split; try (vm_compute; reflexivity);
    try (intros [=]); try (eexists; vm_compute; reflexivity).
  solve_bounds.
Qed.

(** ** Fusion of a token with an opening parenthesis *)

(** The fusion at the head of the raw tokens. *)
Lemma fusion_at_head (token : string) (rest : list string) :
  is_quoted token = false ->
  process_tokens (token :: "(" :: rest)
  = VStr (token +:+ "(") :: process_tokens rest.
Proof. intros Hq. simpl. now rewrite Hq. Qed.

Lemma process_tokens_quoted token rest :
  is_quoted token = true ->
  process_tokens (token :: rest)
  = VStr (slice_1_m1 token) :: process_tokens rest.
Proof. intros Hq. simpl. now rewrite Hq. Qed.

Lemma process_tokens_plain token rest :
  is_quoted token = false ->
  match rest with next :: _ => next <> "(" | [] => True end ->
  process_tokens (token :: rest) = classify token :: process_tokens rest.
Proof.
  intros Hq Hnext. simpl. rewrite Hq. destruct rest as [|next rest'];
    [reflexivity|]. now rewrite bool_decide_eq_false_2.
Qed.

Lemma fusion_within (n : nat) :
  forall (tokens : list string) (i : nat) (token : string),
    length tokens <= n ->
    arrives tokens i = true ->
    tokens !! i = Some token ->
    is_quoted token = false ->
    tokens !! S i = Some "(" ->
    process_tokens tokens
    = process_tokens (take i tokens)
      ++ VStr (token +:+ "(") :: process_tokens (drop (S (S i)) tokens).
Proof.
  induction n as [|n IH]; intros tokens i token Hlen Harr Hi Hq Hnext.
  - destruct tokens; [discriminate Hi|simpl in Hlen; lia].
  - destruct tokens as [|first rest]; [discriminate Hi|].
    simpl in Hlen. destruct i as [|i].
    + injection Hi as ->. destruct rest as [|next rest]; [discriminate|].
      injection Hnext as ->. now rewrite fusion_at_head.
    + cbn [arrives] in Harr. cbn [lookup list_lookup] in Hi, Hnext.
      change (take (S i) (first :: rest)) with (first :: take i rest).
      change (drop (S (S (S i))) (first :: rest))
        with (drop (S (S i)) rest).
      destruct (is_quoted first) eqn:Hfirst.
      * rewrite !process_tokens_quoted by exact Hfirst.
        rewrite (IH rest i token) by (trivial; lia). reflexivity.
      * destruct rest as [|next rest']; [discriminate|]. simpl in Hlen.
        destruct (bool_decide (next = "(")) eqn:Hparen.
        -- apply bool_decide_eq_true_1 in Hparen. subst next.
           destruct i as [|i]; [discriminate|].
           change (take (S i) ("(" :: rest')) with ("(" :: take i rest').
           rewrite !fusion_at_head by exact Hfirst.
           rewrite (IH rest' i token) by (trivial; lia). reflexivity.
        -- apply bool_decide_eq_false_1 in Hparen.
           rewrite (process_tokens_plain first (next :: rest') Hfirst Hparen).
           rewrite (IH (next :: rest') i token) by (trivial; simpl; lia).
           rewrite (process_tokens_plain first (take i (next :: rest')) Hfirst);
             [reflexivity|].
           destruct i; simpl; trivial.
Qed.

(** C9, as amended.  Whenever the loop of [tokenize] arrives at a raw
    token that is not a quoted string, which the loop handles first, and
    the next raw token is an opening parenthesis, it fuses the two into one
    marker, whatever the token: identifier or not.  The tokens before and
    after are processed as they would be alone.  The word [IN] before a
    parenthesis becomes [IN(], and the first of two opening parentheses
    becomes [((]: neither is left in the token list as an operator or a
    parenthesis. *)
Theorem fusion_at_loop_positions :
  (forall (tokens : list string) (i : nat) (token : string),
      arrives tokens i = true ->
      tokens !! i = Some token ->
      is_quoted token = false ->
      tokens !! S i = Some "(" ->
      process_tokens tokens
      = process_tokens (take i tokens)
        ++ VStr (token +:+ "(") :: process_tokens (drop (S (S i)) tokens))
  /\ tokenize "status IN (1)"
     = Ok [VStr "status"; VStr "IN("; VInt 1; VStr ")"]
  /\ tokenize "((age > 30))"
     = Ok [VStr "(("; VStr "age"; VStr ">"; VInt 30; VStr ")"; VStr ")"].
Proof.
  split; [|split; vm_compute; reflexivity].
  intros tokens i token. now apply (fusion_within (length tokens)).
Qed.

Lemma fusion_at_loop_positions_witness :
  process_tokens ["status"; "IN"; "("; "1"; ")"]
  = process_tokens ["status"] ++ VStr "IN(" :: process_tokens ["1"; ")"].
Proof.
  exact (proj1 fusion_at_loop_positions ["status"; "IN"; "("; "1"; ")"] 1
           "IN" eq_refl eq_refl eq_refl eq_refl).
Defined.

(** C9, as stated, fails: a raw token before an opening parenthesis is
    not fused when it is a quoted string, as in ['a'(], nor when it is the
    parenthesis that the fusion before has consumed, as the second raw
    token of [a((]. *)
Lemma raw_token_not_always_fused :
  (raw_tokens "'a'(" = ["'a'"; "("]
   /\ tokenize "'a'(" = Ok [VStr "a"; VStr "("])
  /\ (raw_tokens "a((" = ["a"; "("; "("]
      /\ tokenize "a((" = Ok [VStr "a("; VStr "("])
  /\ ~ (forall (tokens : list string) (i : nat) (token : string),
          tokens !! i = Some token ->
          tokens !! S i = Some "(" ->
          VStr (token +:+ "(") ∈ process_tokens tokens).
Proof.
  repeat split; try (vm_compute; reflexivity).
  intros H. specialize (H ["a"; "("; "("] 1 "(" eq_refl eq_refl).
  apply list_elem_of_In in H. vm_compute in H.
  repeat destruct H as [H|H]; try discriminate H. exact H.
Qed.

(** ** Tokens left after the parse *)

Lemma and_or_operator token :
  is_and_or token = true ->
  lookup_operator token = Some (if tok_eq token "AND" then AND else OR).
Proof.
  unfold is_and_or, tok_eq. destruct token as [| | | |s|]; try discriminate.
  intros H. apply orb_true_iff in H as [H | H];
    apply bool_decide_eq_true_1 in H; subst; reflexivity.
Qed.

(** C10, as amended.  Let the tokens of a rule pass the checks of
    [validate_rule_syntax] and let the parse of the first expression end
    at a position that still holds a token.  When this token is neither [AND] nor [OR], [create_rule]
    returns the node of the first expression: the tokens from that
    position on are dropped, and no error is raised.  When it is [AND] or
    [OR] and a second expression parses after it, [create_rule] returns
    the combination of the two nodes wherever the second parse ends: the
    tokens after it are dropped as well. *)
Theorem create_rule_drops_trailing_tokens
  (self : RuleEngine) (rule_string : string) (tokens : list PyVal)
  (node : Node) (pos : nat) (next_token : PyVal) :
  tokenize rule_string = Ok tokens ->
  validate_rule_syntax tokens = Ok tt ->
  parse_expression self tokens 0 = Ok (node, pos) ->
  tokens !! pos = Some next_token ->
  (is_and_or next_token = false -> create_rule self rule_string = Ok node)
  /\ (forall right_node final_pos,
        is_and_or next_token = true ->
        parse_expression self tokens (pos + 1) = Ok (right_node, final_pos) ->
        create_rule self rule_string
        = Ok (operator_node (if tok_eq next_token "AND" then AND else OR)
                            node right_node)).
Proof.
  intros Htok Hval Hparse Hnext. unfold create_rule.
  rewrite Htok. simpl. rewrite Hval. simpl. rewrite Hparse. simpl.
  rewrite Hnext. split.
  - intros ->. reflexivity.
  - intros right_node final_pos Hop Hright.
    rewrite Hop, (and_or_operator _ Hop), Hright. reflexivity.
Qed.

Lemma create_rule_drops_trailing_tokens_witness :
  create_rule test_engine "age > 30 department = 'Sales'"
  = Ok (comparison_node "age" GT (VInt 30))
  /\ create_rule test_engine "age > 30 OR age < 18 AND department = 'Sales'"
     = Ok (operator_node OR (comparison_node "age" GT (VInt 30))
                            (comparison_node "age" LT (VInt 18))).
Proof.
  split.
  - refine (proj1 (create_rule_drops_trailing_tokens test_engine
              "age > 30 department = 'Sales'"
              [VStr "age"; VStr ">"; VInt 30; VStr "department"; VStr "=";
               VStr "Sales"]
              (comparison_node "age" GT (VInt 30)) 3 (VStr "department")
              _ _ _ _) _); vm_compute; reflexivity.
  - refine (proj2 (create_rule_drops_trailing_tokens test_engine
              "age > 30 OR age < 18 AND department = 'Sales'"
              [VStr "age"; VStr ">"; VInt 30; VStr "OR"; VStr "age"; VStr "<";
               VInt 18; VStr "AND"; VStr "department"; VStr "="; VStr "Sales"]
              (comparison_node "age" GT (VInt 30)) 3 (VStr "OR")
              _ _ _ _) (comparison_node "age" LT (VInt 18)) 7 _ _);
      vm_compute; reflexivity.
Defined.

(** C10, as stated, fails: the parenthesis and operator checks run before
    the parse.  In [age > 30 )] the parse of the first expression ends on
    the parenthesis, which is neither [AND] nor [OR], and [create_rule]
    does not return its node but fails; so it does for a token left after
    the second expression, and for a trailing operator. *)
Lemma trailing_tokens_not_always_dropped :
  (tokenize "age > 30 )" = Ok [VStr "age"; VStr ">"; VInt 30; VStr ")"]
   /\ parse_expression test_engine
        [VStr "age"; VStr ">"; VInt 30; VStr ")"] 0
      = Ok (comparison_node "age" GT (VInt 30), 3)
   /\ is_and_or (VStr ")") = false
   /\ create_rule test_engine "age > 30 )"
      = Raise (RuleValidationError "Unmatched closing parenthesis"))
  /\ create_rule test_engine "age > 30 AND age < 18 )"
     = Raise (RuleValidationError "Unmatched closing parenthesis")
  /\ create_rule test_engine "age > 30 <"
     = Raise (RuleValidationError "Operator < missing right operand").
Proof. repeat split; vm_compute; reflexivity. Qed.

(** ** The parser never exhausts its fuel *)

Section Fuel.
Context (self : RuleEngine) (tokens : list PyVal).

(** A call consumes its marker, and the loop never moves back. *)
Lemma parse_function_advances fuel :
  (forall pos node next_pos,
      parse_function_fuel fuel self tokens pos = Some (Ok (node, next_pos)) ->
      pos < next_pos)
  /\ (forall current_pos args args' next_pos,
      parse_args fuel self tokens current_pos args
      = Some (Ok (args', next_pos)) ->
      current_pos <= next_pos).
Proof.
  induction fuel as [|fuel [IHf IHa]]; [split; intros; discriminate|].
  split.
  - intros pos node next_pos. simpl.
    destruct (tokens !! pos) as [[| | | |marker|]|]; try discriminate.
    destruct (function_registry self !! slice_m1 marker); [|discriminate].
    destruct (parse_args fuel self tokens (pos + 1) [])
      as [[[args current_pos]| |]|] eqn:Hargs; try discriminate.
    intros [= _ <-]. apply IHa in Hargs. lia.
  - intros current_pos args args' next_pos. simpl.
    destruct (tokens !! current_pos) as [token|]; [|intros [= _ <-]; lia].
    destruct (tok_eq token ")"); [intros [= _ <-]; lia|].
    destruct (tok_eq token ",");
      [intros H; apply IHa in H; lia|].
    destruct (is_marker token); [|intros H; apply IHa in H; lia].
    destruct (parse_function_fuel fuel self tokens current_pos)
      as [[[arg_node new_pos]| |]|] eqn:Hcall; try discriminate.
    intros H. apply IHf in Hcall. apply IHa in H. lia.
Qed.

Lemma parse_function_fuel_enough fuel :
  (forall pos,
      2 * (length tokens - (pos + 1)) + 2 <= fuel ->
      is_Some (parse_function_fuel fuel self tokens pos))
  /\ (forall current_pos args,
      2 * (length tokens - current_pos) + 1 <= fuel ->
      is_Some (parse_args fuel self tokens current_pos args)).
Proof.
  induction fuel as [|fuel [IHf IHa]]; [split; intros; lia|].
  split.
  - intros pos Hfuel. simpl.
    destruct (tokens !! pos) as [[| | | |marker|]|]; try (eexists; reflexivity).
    destruct (function_registry self !! slice_m1 marker);
      [|eexists; reflexivity].
    destruct (IHa (pos + 1) [] ltac:(lia)) as [[[args p]| |] ->];
      eexists; reflexivity.
  - intros current_pos args Hfuel. simpl.
    destruct (tokens !! current_pos) as [token|] eqn:Htoken;
      [|eexists; reflexivity].
    apply lookup_lt_Some in Htoken.
    destruct (tok_eq token ")"); [eexists; reflexivity|].
    destruct (tok_eq token ","); [apply IHa; lia|].
    destruct (is_marker token); [|apply IHa; lia].
    destruct (IHf current_pos ltac:(lia)) as [[[arg_node new_pos]| |] Hcall];
      rewrite Hcall; try (eexists; reflexivity).
    apply (proj1 (parse_function_advances fuel)) in Hcall.
    apply IHa. lia.
Qed.

(** [parse_function] is the result of the fuelled parser, never the
    default for an exhausted fuel. *)
Lemma parse_function_total pos :
  parse_function_fuel (fuel_of tokens) self tokens pos
  = Some (parse_function self tokens pos).
Proof.
  unfold parse_function.
  destruct (proj1 (parse_function_fuel_enough (fuel_of tokens)) pos)
    as [r ->]; [unfold fuel_of; lia|].
  reflexivity.
Qed.

Lemma parse_expression_fuel_enough fuel pos :
  0 < fuel -> length tokens < fuel + pos ->
  is_Some (parse_expression_fuel fuel self tokens pos).
Proof.
  revert pos. induction fuel as [|fuel IH]; intros pos Hpos Hfuel; simpl.
  - lia.
  - destruct (tokens !! pos) as [token|] eqn:Htoken; [|eexists; reflexivity].
    apply lookup_lt_Some in Htoken.
    destruct (tok_eq token "(").
    + destruct (IH (pos + 1) ltac:(lia) ltac:(lia))
        as [[[node next_pos]| |] ->];
        try (eexists; reflexivity).
      destruct (tokens !! next_pos) as [closing|]; [|eexists; reflexivity].
      destruct (tok_eq closing ")"); eexists; reflexivity.
    + destruct (is_marker token); [eexists; reflexivity|].
      destruct (tokens !! (pos + 1) ≫= lookup_operator);
        [destruct (tokens !! (pos + 2)); [destruct token|]|];
        try destruct (bool_decide _); eexists; reflexivity.
Qed.

Lemma parse_expression_total pos :
  parse_expression_fuel (S (length tokens)) self tokens pos
  = Some (parse_expression self tokens pos).
Proof.
  unfold parse_expression.
  destruct (parse_expression_fuel_enough (S (length tokens)) pos)
    as [r ->]; [lia | lia |].
  reflexivity.
Qed.
End Fuel.

(** * Further properties *)

(** ** The parenthesis check *)

Lemma tok_eq_open_close token :
  tok_eq token "(" = true -> tok_eq token ")" = false.
Proof.
  destruct token; simpl; try discriminate.
  intros H. apply bool_decide_eq_true_1 in H. now subst.
Qed.

Lemma length_removelast {A : Type} (l : list A) :
  length (removelast l) = pred (length l).
Proof.
  induction l as [|x [|y l] IH]; simpl in *; [reflexivity..|].
  now rewrite IH.
Qed.

(** The stack of the loop counts the parentheses opened and not yet
    closed. *)
Lemma validate_loop_balance tokens rest stack stack' :
  validate_loop tokens rest stack = Ok stack' ->
  length stack' + count_tok ")" rest = length stack + count_tok "(" rest
  /\ forall n, count_tok ")" (take n rest)
               <= length stack + count_tok "(" (take n rest).
Proof.
  revert stack. induction rest as [|token rest IH]; intros stack; simpl.
  - intros [= <-]. split; [lia|]. intros n. rewrite take_nil. simpl. lia.
  - destruct (tok_eq token "(") eqn:Hopen.
    + rewrite (tok_eq_open_close _ Hopen). intros H.
      apply IH in H as [Hlen Hpre]. rewrite length_app in *. simpl in *.
      split; [lia|]. intros [|n]; simpl; [lia|].
      rewrite Hopen, (tok_eq_open_close _ Hopen). specialize (Hpre n). lia.
    + destruct (tok_eq token ")") eqn:Hclose.
      * destruct stack as [|top stack]; [discriminate|]. intros H.
        apply IH in H as [Hlen Hpre].
        rewrite length_removelast in Hlen, Hpre. simpl in *.
        split; [lia|]. intros [|n]; simpl; [lia|].
        rewrite Hopen, Hclose. specialize (Hpre n). lia.
      * assert (Hnext : validate_loop tokens rest stack = Ok stack' ->
                  length stack' + (0 + count_tok ")" rest)
                  = length stack + (0 + count_tok "(" rest)
                  /\ (forall n, count_tok ")" (take n (token :: rest))
                      <= length stack + count_tok "(" (take n (token :: rest)))).
        { intros H. apply IH in H as [Hlen Hpre]. split; [lia|].
          intros [|n]; simpl; [lia|]. rewrite Hopen, Hclose.
          specialize (Hpre n). lia. }
        destruct token as [| | | |op|]; try exact Hnext.
        destruct (bool_decide (is_Some (operators !! op))); [|exact Hnext].
        destruct (index_of op tokens) as [i|]; [|discriminate].
        destruct (i + 1 <? length tokens)%nat; [exact Hnext|discriminate].
Qed.

(** X1.  A token list that [validate_rule_syntax] accepts holds as many
    closing as opening parenthesis tokens, and no prefix of it holds more
    closing than opening ones. *)
Theorem accepted_tokens_balanced (tokens : list PyVal) :
  validate_rule_syntax tokens = Ok tt ->
  count_tok "(" tokens = count_tok ")" tokens
  /\ forall n, count_tok ")" (take n tokens) <= count_tok "(" (take n tokens).
Proof.
  unfold validate_rule_syntax.
  destruct (validate_loop tokens tokens []) as [stack| |] eqn:Hloop;
    try discriminate.
  simpl. destruct stack; [|discriminate]. intros _.
  apply validate_loop_balance in Hloop as [Hlen Hpre]. simpl in *.
  split; [lia|exact Hpre].
Qed.

Lemma accepted_tokens_balanced_witness :
  count_tok "(" [VStr "("; VStr "age"; VStr ">"; VInt 30; VStr ")"]
  = count_tok ")" [VStr "("; VStr "age"; VStr ">"; VInt 30; VStr ")"].
Proof.
  refine (proj1 (accepted_tokens_balanced
            [VStr "("; VStr "age"; VStr ">"; VInt 30; VStr ")"] _)).
  vm_compute; reflexivity.
Defined.

(** ** The operator check *)

Lemma index_of_lt op tokens i :
  index_of op tokens = Some i -> i < length tokens.
Proof.
  revert i. induction tokens as [|t r IH]; intros i; simpl; [discriminate|].
  destruct (tok_eq t op); [intros [= <-]; lia|].
  destruct (index_of op r) as [j|]; [|discriminate].
  intros [= <-]. specialize (IH j eq_refl). lia.
Qed.

Lemma index_of_app_l op tokens extra i :
  index_of op tokens = Some i -> index_of op (tokens ++ extra) = Some i.
Proof.
  revert i. induction tokens as [|t r IH]; intros i; simpl; [discriminate|].
  destruct (tok_eq t op); [trivial|].
  destruct (index_of op r) as [j|]; [|discriminate].
  intros [= <-]. now rewrite (IH j eq_refl).
Qed.

Lemma index_of_fresh op tokens :
  index_of op tokens = None ->
  index_of op (tokens ++ [VStr op]) = Some (length tokens).
Proof.
  induction tokens as [|t r IH]; simpl.
  - now rewrite bool_decide_eq_true_2.
  - destruct (tok_eq t op); [discriminate|].
    destruct (index_of op r); [discriminate|]. intros _.
    now rewrite IH.
Qed.

(** A run of the loop that succeeds still succeeds, with the same stack,
    when tokens are added at the end of the whole list. *)
Lemma validate_loop_extend tokens extra rest stack stack' :
  validate_loop tokens rest stack = Ok stack' ->
  validate_loop (tokens ++ extra) rest stack = Ok stack'.
Proof.
  revert stack. induction rest as [|token rest IH]; intros stack; simpl;
    [trivial|].
  destruct (tok_eq token "("); [apply IH|].
  destruct (tok_eq token ")"); [destruct stack; [discriminate|apply IH]|].
  destruct token as [| | | |op|]; try apply IH.
  destruct (bool_decide (is_Some (operators !! op))); [|apply IH].
  destruct (index_of op tokens) as [i|] eqn:Hi; [|discriminate].
  rewrite (index_of_app_l _ _ extra _ Hi), length_app.
  destruct (i + 1 <? length tokens)%nat eqn:Hlt; [|discriminate].
  apply Nat.ltb_lt in Hlt.
  replace (i + 1 <? length tokens + length extra)%nat with true
    by (symmetry; apply Nat.ltb_lt; lia).
  apply IH.
Qed.

Lemma validate_loop_app tokens rest1 rest2 stack :
  validate_loop tokens (rest1 ++ rest2) stack
  = (middle ← validate_loop tokens rest1 stack;
     validate_loop tokens rest2 middle).
Proof.
  revert stack. induction rest1 as [|token rest1 IH]; intros stack; simpl;
    [reflexivity|].
  destruct (tok_eq token "("); [apply IH|].
  destruct (tok_eq token ")"); [destruct stack; [reflexivity|apply IH]|].
  destruct token as [| | | |op|]; try apply IH.
  destruct (bool_decide (is_Some (operators !! op))); [|apply IH].
  destruct (index_of op tokens) as [i|]; [|reflexivity].
  destruct (i + 1 <? length tokens)%nat; [apply IH|reflexivity].
Qed.

Lemma operator_not_parenthesis op :
  is_Some (operators !! op) ->
  tok_eq (VStr op) "(" = false /\ tok_eq (VStr op) ")" = false.
Proof.
  intros Hop. simpl. split; apply bool_decide_eq_false_2; intros ->;
    vm_compute in Hop; destruct Hop as [? [=]].
Qed.

(** X2.  [validate_rule_syntax] looks for the operand of a trailing
    operator at the first occurrence of the operator: added at the end of
    an accepted token list, an operator that the list already holds is
    accepted, and one that it does not yet hold is rejected for its
    missing right operand. *)
Theorem trailing_operator_check (tokens : list PyVal) (op : string) :
  validate_rule_syntax tokens = Ok tt ->
  is_Some (operators !! op) ->
  (is_Some (index_of op tokens) ->
   validate_rule_syntax (tokens ++ [VStr op]) = Ok tt)
  /\ (index_of op tokens = None ->
      validate_rule_syntax (tokens ++ [VStr op])
      = Raise (RuleValidationError
                 ("Operator " +:+ op +:+ " missing right operand"))).
Proof.
  unfold validate_rule_syntax. intros Hok Hop.
  destruct (validate_loop tokens tokens []) as [stack| |] eqn:Hloop;
    try discriminate.
  simpl in Hok. destruct stack; [clear Hok|discriminate].
  rewrite validate_loop_app,
    (validate_loop_extend _ [VStr op] _ _ _ Hloop).
  destruct (operator_not_parenthesis op Hop) as [Hopen Hclose].
  simpl. simpl in Hopen, Hclose. rewrite Hopen, Hclose.
  rewrite (bool_decide_eq_true_2 _ Hop), length_app. simpl. split.
  - intros [i Hi]. rewrite (index_of_app_l _ _ _ _ Hi).
    apply index_of_lt in Hi.
    replace (i + 1 <? length tokens + 1)%nat with true
      by (symmetry; apply Nat.ltb_lt; lia).
    reflexivity.
  - intros Hnone. rewrite (index_of_fresh _ _ Hnone).
    rewrite Nat.ltb_irrefl. reflexivity.
Qed.

Lemma trailing_operator_check_witness :
  validate_rule_syntax [VStr "age"; VStr ">"; VInt 30; VStr ">"] = Ok tt
  /\ validate_rule_syntax [VStr "age"; VStr ">"; VInt 30; VStr "<"]
     = Raise (RuleValidationError "Operator < missing right operand").
Proof.
  split.
  - refine (proj1 (trailing_operator_check [VStr "age"; VStr ">"; VInt 30]
              ">" _ _) _); vm_compute; eauto.
  - refine (proj2 (trailing_operator_check [VStr "age"; VStr ">"; VInt 30]
              "<" _ _) _); vm_compute; eauto.
Defined.

(** ** What the parser returns *)

Lemma well_formed_call_node self fname args :
  well_formed_call self (function_node fname args)
  <-> is_Some (function_registry self !! fname)
      /\ Forall (arg_ok (well_formed_call self)) args.
Proof.
  simpl. split.
  - intros (_ & Hf & Hargs). split; [exact Hf|].
    induction args as [|arg rest IH]; [constructor|].
    destruct Hargs as [Harg Hrest]. constructor; [exact Harg|now apply IH].
  - intros [Hf Hargs]. repeat split; [exact Hf|].
    induction Hargs as [|arg rest Harg _ IH]; [exact I|now split].
Qed.

Lemma well_formed_call_type self node :
  well_formed_call self node -> node_type node = FUNCTION.
Proof. destruct node. simpl. tauto. Qed.

Lemma bind_raise_not_ok {A B : Type} (m : outcome A) (f : A -> exn) (x : B) :
  (a ← m; Raise (f a)) <> Ok x.
Proof. destruct m; discriminate. Qed.

Section Parser.
Context (self : RuleEngine) (tokens : list PyVal).

Lemma parse_function_well_formed fuel :
  (forall pos node next_pos,
      parse_function_fuel fuel self tokens pos = Some (Ok (node, next_pos)) ->
      well_formed_call self node)
  /\ (forall current_pos args args' next_pos,
      parse_args fuel self tokens current_pos args
      = Some (Ok (args', next_pos)) ->
      Forall (arg_ok (well_formed_call self)) args ->
      Forall (arg_ok (well_formed_call self)) args').
Proof.
  induction fuel as [|fuel [IHf IHa]]; [split; intros; discriminate|].
  split.
  - intros pos node next_pos. cbn [parse_function_fuel].
    destruct (tokens !! pos) as [[| | | |marker|]|]; try discriminate.
    destruct (function_registry self !! slice_m1 marker) eqn:Hreg;
      [|discriminate].
    destruct (parse_args fuel self tokens (pos + 1) [])
      as [[[args current_pos]| |]|] eqn:Hargs; try discriminate.
    intros [= <- _]. apply well_formed_call_node. split; [now rewrite Hreg|].
    apply (IHa _ _ _ _ Hargs). constructor.
  - intros current_pos args args' next_pos. cbn [parse_args].
    destruct (tokens !! current_pos) as [token|]; [|now intros [= <- _]].
    destruct (tok_eq token ")") eqn:Hclose; [now intros [= <- _]|].
    destruct (tok_eq token ",") eqn:Hcomma; [apply IHa|].
    destruct (is_marker token) eqn:Hmarker.
    + destruct (parse_function_fuel fuel self tokens current_pos)
        as [[[arg_node new_pos]| |]|] eqn:Hcall; try discriminate.
      intros H Hok. apply (IHa _ _ _ _ H).
      apply Forall_app. split; [exact Hok|].
      constructor; [exact (IHf _ _ _ Hcall)|constructor].
    + intros H Hok. apply (IHa _ _ _ _ H).
      apply Forall_app. split; [exact Hok|].
      constructor; [now repeat split|constructor].
Qed.

Lemma parse_expression_fuel_leaf fuel pos node next_pos :
  parse_expression_fuel fuel self tokens pos = Some (Ok (node, next_pos)) ->
  parsed_leaf self node
  /\ pos < next_pos
  /\ (node_type node = COMPARISON -> next_pos <= length tokens).
Proof.
  revert pos node next_pos.
  induction fuel as [|fuel IH]; intros pos node next_pos; [discriminate|].
  cbn [parse_expression_fuel].
  destruct (tokens !! pos) as [token|] eqn:Htoken; [|discriminate].
  destruct (tok_eq token "(").
  - destruct (parse_expression_fuel fuel self tokens (pos + 1))
      as [[[inner inner_pos]| |]|] eqn:Hinner; try discriminate.
    apply IH in Hinner as (Hleaf & Hpos & Hlen).
    destruct (tokens !! inner_pos) as [closing|] eqn:Hclosing;
      [|discriminate].
    destruct (tok_eq closing ")"); [|discriminate].
    intros [= <- <-]. apply lookup_lt_Some in Hclosing.
    repeat split; [exact Hleaf|lia|lia].
  - destruct (is_marker token).
    + intros [= Hcall]. unfold parse_function in Hcall.
      destruct (parse_function_fuel (fuel_of tokens) self tokens pos)
        as [r|] eqn:Hfuel; simpl in Hcall; [subst r|discriminate].
      pose proof (proj1 (parse_function_well_formed _) _ _ _ Hfuel) as Hwf.
      pose proof (proj1 (parse_function_advances self tokens _) _ _ _ Hfuel).
      repeat split; [now right|lia|].
      apply well_formed_call_type in Hwf. congruence.
    + destruct (tokens !! (pos + 1) ≫= lookup_operator) as [operator|];
        [destruct (tokens !! (pos + 2)) as [value|] eqn:Hvalue|].
      * destruct token as [| | | |field|];
          try (intros [= H]; now apply bind_raise_not_ok in H).
        destruct (bool_decide (is_Some (attribute_catalog self !! field)))
          eqn:Hcat; [|discriminate].
        intros [= <- <-]. apply bool_decide_eq_true_1 in Hcat.
        apply lookup_lt_Some in Hvalue.
        repeat split; [left; eauto|lia|lia].
      * intros [= H]. now apply bind_raise_not_ok in H.
      * intros [= H]. now apply bind_raise_not_ok in H.
Qed.
End Parser.

(** X3.  Whatever [parse_expression] returns is a comparison on an
    attribute that the catalog holds, or a tree of calls whose every call
    names a registered function: never a logical node, also between
    parentheses.  The position it returns lies after the one it was given,
    and within the tokens when the node is a comparison. *)
Theorem parse_expression_returns_leaf
  (self : RuleEngine) (tokens : list PyVal) (pos : nat) (node : Node)
  (next_pos : nat) :
  parse_expression self tokens pos = Ok (node, next_pos) ->
  parsed_leaf self node
  /\ node_type node <> OPERATOR
  /\ pos < next_pos
  /\ (node_type node = COMPARISON -> next_pos <= length tokens).
Proof.
  intros H. unfold parse_expression in H.
  destruct (parse_expression_fuel (S (length tokens)) self tokens pos)
    as [r|] eqn:Hfuel; simpl in H; [subst r|discriminate].
  apply parse_expression_fuel_leaf in Hfuel as (Hleaf & Hpos & Hlen).
  repeat split; try assumption.
  destruct Hleaf as [(field & op & value & -> & _) | Hwf];
    [discriminate|apply well_formed_call_type in Hwf; congruence].
Qed.

Lemma parse_expression_returns_leaf_witness :
  parsed_leaf test_engine (comparison_node "age" GT (VInt 30)).
Proof.
  refine (proj1 (parse_expression_returns_leaf test_engine
            [VStr "("; VStr "age"; VStr ">"; VInt 30; VStr ")"] 0
            (comparison_node "age" GT (VInt 30)) 5 _)).
  vm_compute; reflexivity.
Defined.

(** X4.  A tree that [create_rule] returns holds one logical node at most,
    at its root, with [AND] or [OR] as operator and two results of
    [parse_expression] as children. *)
Theorem create_rule_shape (self : RuleEngine) (rule_string : string)
  (node : Node) :
  create_rule self rule_string = Ok node ->
  parsed_leaf self node
  \/ exists op l r,
       node = operator_node op l r /\ (op = AND \/ op = OR)
       /\ parsed_leaf self l /\ parsed_leaf self r.
Proof.
  unfold create_rule.
  destruct (tokenize rule_string) as [tokens| |]; try discriminate. simpl.
  destruct (validate_rule_syntax tokens) as [[]| |]; try discriminate. simpl.
  destruct (parse_expression self tokens 0) as [[first pos]| |] eqn:Hfirst;
    try discriminate.
  simpl. apply parse_expression_returns_leaf in Hfirst as (Hleaf & _).
  destruct (tokens !! pos) as [next_token|]; [|intros [= <-]; now left].
  destruct (is_and_or next_token) eqn:Hop; [|intros [= <-]; now left].
  rewrite (and_or_operator _ Hop).
  destruct (parse_expression self tokens (pos + 1))
    as [[right_node final_pos]| |] eqn:Hright; try discriminate.
  simpl. apply parse_expression_returns_leaf in Hright as (Hleaf' & _).
  intros [= <-]. right. do 3 eexists. split; [reflexivity|].
  split; [destruct (tok_eq next_token "AND"); auto|]. now split.
Qed.

Lemma create_rule_shape_witness :
  parsed_leaf test_engine sales_ast
  \/ exists op l r,
       sales_ast = operator_node op l r /\ (op = AND \/ op = OR)
       /\ parsed_leaf test_engine l /\ parsed_leaf test_engine r.
Proof.
  refine (create_rule_shape test_engine sales_rule sales_ast _).
  vm_compute; reflexivity.
Defined.

(** ** Validation of attributes *)

(** X5.  A value that [validate_attribute] returns is of the type declared
    for the attribute, and validating it again returns it unchanged. *)
Theorem validated_value_stable
  (self : RuleEngine) (attr : string) (value v : PyVal) :
  validate_attribute self attr value = Ok v ->
  (exists definition,
      attribute_catalog self !! attr = Some definition
      /\ isinstance v (data_type definition) = true)
  /\ validate_attribute self attr v = Ok v.
Proof.
  unfold validate_attribute.
  destruct (attribute_catalog self !! attr) as [definition|]; [|discriminate].
  destruct (coerce attr (data_type definition) value) as [coerced| |] eqn:Hco;
    try discriminate.
  simpl.
  destruct (check_constraints attr coerced (default [] (constraints definition)))
    as [[]| |] eqn:Hcheck; try discriminate.
  simpl. intros [= <-]. apply coerce_isinstance in Hco. split; [eauto|].
  unfold coerce. rewrite Hco. simpl. now rewrite Hcheck.
Qed.

Lemma validated_value_stable_witness :
  validate_attribute test_engine "age" (VInt 35) = Ok (VInt 35).
Proof.
  refine (proj2 (validated_value_stable test_engine "age" (VStr " 35 ")
                   (VInt 35) _)).
  vm_compute; reflexivity.
Defined.

Lemma py_eq_str x s :
  py_eq x (VStr s) = Ok true /\ x = VStr s
  \/ py_eq x (VStr s) = Ok false /\ x <> VStr s.
Proof.
  destruct x as [|b|z|lexeme|y|l];
    try (right; split; [reflexivity|discriminate]).
  simpl. destruct (decide (y = s)) as [->|Hne].
  - left. now rewrite bool_decide_eq_true_2.
  - right. rewrite bool_decide_eq_false_2 by exact Hne.
    split; [reflexivity|congruence].
Qed.

Lemma py_in_str_list s (allowed : list PyVal) :
  (VStr s ∈ allowed -> py_in (VStr s) (VList allowed) = Ok true)
  /\ (VStr s ∉ allowed -> py_in (VStr s) (VList allowed) = Ok false).
Proof.
  simpl. induction allowed as [|x allowed [IHin IHout]].
  - split; [intros H; inversion H|reflexivity].
  - rewrite andb_false_r.
    destruct (py_eq_str x s) as [[-> ->] | [-> Hne]]; simpl.
    + split; [reflexivity|]. intros H. exfalso. apply H. constructor.
    + split.
      * intros H. apply IHin. inversion H; subst; [congruence|assumption].
      * intros H. apply IHout. intros Hin. apply H. now constructor.
Qed.

(** X6.  For an attribute of type str whose only constraint is an [enum]
    list: a string of the list is returned as it is, and a string outside
    the list fails with the attribute error that prints the list. *)
Theorem validate_attribute_enum
  (self : RuleEngine) (attr : string) (definition : AttributeDefinition)
  (allowed : list PyVal) (s : string) :
  attribute_catalog self !! attr = Some definition ->
  data_type definition = TStr ->
  constraints definition = Some [("enum", VList allowed)] ->
  (VStr s ∈ allowed -> validate_attribute self attr (VStr s) = Ok (VStr s))
  /\ (forall shown,
        VStr s ∉ allowed ->
        py_repr (VList allowed) = Some shown ->
        validate_attribute self attr (VStr s)
        = Raise (AttributeValidationError
                   ("Value for " +:+ attr +:+ " must be one of: " +:+ shown))).
Proof.
  intros Hcat Htype Hitems. unfold validate_attribute.
  rewrite Hcat, Htype, Hitems.
  destruct (py_in_str_list s allowed) as [Hin Hout].
  cbn [coerce isinstance mbind outcome_bind].
  change (check_constraints attr (VStr s) _)
    with (member ← py_in (VStr s) (VList allowed);
          if member : bool then Ok tt
          else shown ← py_str (VList allowed);
               Raise (AttributeValidationError
                        ("Value for " +:+ attr +:+ " must be one of: "
                         +:+ shown))).
  split.
  - intros H. now rewrite (Hin H).
  - intros shown H Hshown. rewrite (Hout H). unfold py_str.
    now rewrite Hshown.
Qed.

Lemma validate_attribute_enum_witness :
  validate_attribute test_engine "department" (VStr "Marketing")
  = Ok (VStr "Marketing")
  /\ validate_attribute test_engine "department" (VStr "Support")
     = Raise (AttributeValidationError enum_failure).
Proof.
  pose proof (validate_attribute_enum test_engine "department"
                department_definition
                [VStr "Sales"; VStr "Marketing"; VStr "Engineering"])
    as enum.
  split.
  - refine (proj1 (enum "Marketing" _ eq_refl eq_refl) _);
      [vm_compute; reflexivity|].
    apply list_elem_of_In. simpl. auto.
  - refine (proj2 (enum "Support" _ eq_refl eq_refl) _ _ _);
      [vm_compute; reflexivity| |vm_compute; reflexivity].
    intros H. apply list_elem_of_In in H. simpl in H.
    repeat destruct H as [H|H]; try discriminate H. exact H.
Defined.

(** X7.  Registering an attribute replaces what the catalog held under its
    name and leaves the rest alone: validation under any other name, and
    the function registry, are as before; and of two registrations under
    one name only the second counts. *)
Theorem register_attribute_frame
  (self : RuleEngine) (definition : AttributeDefinition) :
  attribute_catalog (register_attribute self definition) !! name definition
  = Some definition
  /\ (forall attr value,
        attr <> name definition ->
        validate_attribute (register_attribute self definition) attr value
        = validate_attribute self attr value)
  /\ function_registry (register_attribute self definition)
     = function_registry self
  /\ (forall earlier,
        name earlier = name definition ->
        register_attribute (register_attribute self earlier) definition
        = register_attribute self definition).
Proof.
  unfold register_attribute, validate_attribute. simpl.
  split; [apply lookup_insert_eq|]. split; [|split; [reflexivity|]].
  - intros attr value Hne. now rewrite lookup_insert_ne.
  - intros earlier ->. now rewrite insert_insert_eq.
Qed.

Lemma register_attribute_frame_witness :
  validate_attribute (register_attribute test_engine
    {| name := "salary"; data_type := TInt; constraints := None;
       description := ""; required := false |}) "age" (VInt 35)
  = validate_attribute test_engine "age" (VInt 35).
Proof.
  refine (proj1 (proj2 (register_attribute_frame test_engine _)) "age"
            (VInt 35) _).
  discriminate.
Defined.

(** ** The scanner and the tokenizer *)

Lemma chars_str (l : list ascii) : chars (str l) = l.
Proof. apply list_ascii_of_string_of_list_ascii. Qed.

Lemma str_chars (s : string) : str (chars s) = s.
Proof. apply string_of_list_ascii_of_string. Qed.

Lemma space_is_delimiter c :
  is_space c = true ->
  is_plain c = false /\ bool_decide (c = dquote) = false
  /\ bool_decide (c = squote) = false /\ bool_decide (c = lparen) = false
  /\ bool_decide (c = rparen) = false.
Proof.
  intros Hc. unfold is_plain. rewrite Hc. simpl.
  repeat split; try reflexivity; apply bool_decide_eq_false_2; intros ->;
    discriminate Hc.
Qed.

(** White space ends a run and is dropped. *)
Lemma findall_space m c r :
  is_space c = true ->
  match m with InQuote _ _ => False | _ => True end ->
  findall m (c :: r) = flush m ++ findall Idle r.
Proof.
  intros Hc Hm.
  destruct (space_is_delimiter c Hc) as (Hp & Hd & Hs & Hl & Hr).
  destruct m; try contradiction; simpl; now rewrite Hp, Hd, Hs, Hl, Hr.
Qed.

Lemma findall_blank ws :
  forallb is_space ws = true -> findall Idle ws = [].
Proof.
  induction ws as [|c ws IH]; simpl forallb; [reflexivity|].
  intros H. apply andb_true_iff in H as [Hc Hws].
  rewrite (findall_space Idle c ws Hc I). simpl. now apply IH.
Qed.

Lemma findall_leading ws s :
  forallb is_space ws = true -> findall Idle (ws ++ s) = findall Idle s.
Proof.
  induction ws as [|c ws IH]; simpl forallb; [reflexivity|].
  intros H. apply andb_true_iff in H as [Hc Hws]. simpl app.
  rewrite (findall_space Idle c _ Hc I). simpl. now apply IH.
Qed.

Lemma existsb_blank q ws :
  is_space q = false -> forallb is_space ws = true ->
  existsb (fun x => bool_decide (x = q)) ws = false.
Proof.
  intros Hq. induction ws as [|c ws IH]; simpl; [reflexivity|].
  intros H. apply andb_true_iff in H as [Hc Hws].
  rewrite (IH Hws), orb_false_r. apply bool_decide_eq_false_2.
  intros ->. congruence.
Qed.

Lemma findall_trailing ws s m :
  forallb is_space ws = true ->
  match m with
  | InQuote q _ => existsb (fun x => bool_decide (x = q)) s = true
  | _ => True
  end ->
  findall m (s ++ ws) = findall m s.
Proof.
  intros Hws. revert m. induction s as [|c s IH]; intros m Hm.
  - destruct m; try discriminate Hm; simpl app.
    + now apply findall_blank.
    + destruct ws as [|c ws]; [reflexivity|]. simpl in Hws.
      apply andb_true_iff in Hws as [Hc Hws].
      rewrite (findall_space (InRun acc) c ws Hc I), (findall_blank ws Hws).
      apply app_nil_r.
  - assert (Hidle : findall Idle (s ++ ws) = findall Idle s)
      by (apply IH; exact I).
    assert (Hquote : forall q,
              bool_decide (q = dquote) || bool_decide (q = squote) = true ->
              existsb (fun x => bool_decide (x = q)) (s ++ ws)
              = existsb (fun x => bool_decide (x = q)) s).
    { intros q Hq. rewrite existsb_app.
      rewrite (existsb_blank q ws); [apply orb_false_r| |exact Hws].
      apply orb_true_iff in Hq as [Hq | Hq];
        apply bool_decide_eq_true_1 in Hq; subst; reflexivity. }
    assert (Hopen : forall m',
              match m' with InQuote _ _ => False | _ => True end ->
              findall m' ((c :: s) ++ ws) = findall m' (c :: s)).
    { intros m' Hm'.
      transitivity
        (if is_plain c then findall (InRun (c :: run_of m')) (s ++ ws)
         else flush m' ++
           (if bool_decide (c = dquote) || bool_decide (c = squote)
            then if existsb (fun x => bool_decide (x = c)) (s ++ ws)
                 then findall (InQuote c []) (s ++ ws)
                 else findall Idle (s ++ ws)
            else if bool_decide (c = lparen) || bool_decide (c = rparen)
            then str [c] :: findall Idle (s ++ ws)
            else findall Idle (s ++ ws)));
        [destruct m'; try contradiction; reflexivity|].
      rewrite Hidle, (IH (InRun (c :: run_of m')) I).
      destruct (bool_decide (c = dquote) || bool_decide (c = squote)) eqn:Hq.
      - rewrite (Hquote c Hq).
        destruct (existsb (fun x => bool_decide (x = c)) s) eqn:Hclosed.
        + rewrite (IH (InQuote c []) Hclosed).
          destruct m'; try contradiction; simpl; now rewrite Hq, Hclosed.
        + destruct m'; try contradiction; simpl; now rewrite Hq, Hclosed.
      - destruct m'; try contradiction; simpl; now rewrite Hq. }
    destruct m as [|acc|q acc]; [apply Hopen, I|apply Hopen, I|].
    simpl in Hm |- *. destruct (bool_decide (c = q)); [now rewrite Hidle|].
    simpl in Hm. now apply IH.
Qed.

Lemma append_nonempty (a b c : string) : b <> "" -> a +:+ b +:+ c <> "".
Proof.
  intros Hb H. apply (f_equal chars) in H.
  rewrite !chars_append in H. simpl in H.
  apply app_eq_nil in H as [_ H]. apply app_eq_nil in H as [H _].
  apply Hb. rewrite <- (str_chars b), H. reflexivity.
Qed.

(** X8.  White space before and after a rule does not change its tokens. *)
Theorem tokenize_ignores_surrounding_space (before rule_string after : string) :
  blank before = true -> blank after = true -> rule_string <> "" ->
  tokenize (before +:+ rule_string +:+ after) = tokenize rule_string.
Proof.
  intros Hb Ha Hne. unfold tokenize, raw_tokens.
  rewrite (bool_decide_eq_false_2 _ (append_nonempty before _ after Hne)),
    (bool_decide_eq_false_2 _ Hne), !chars_append.
  rewrite (findall_leading _ _ Hb), (findall_trailing _ _ Idle Ha I).
  reflexivity.
Qed.

Lemma tokenize_ignores_surrounding_space_witness :
  tokenize "  ( age > 30 ) " = tokenize "( age > 30 )".
Proof.
  exact (tokenize_ignores_surrounding_space "  " "( age > 30 )" " "
           eq_refl eq_refl ltac:(discriminate)).
Defined.

(** X9.  A rule of white space only has no token: [create_rule] fails with
    the unexpected end of the expression, not with the empty rule. *)
Theorem blank_rule_rejected (self : RuleEngine) (rule_string : string) :
  blank rule_string = true -> rule_string <> "" ->
  tokenize rule_string = Ok []
  /\ create_rule self rule_string
     = Raise (RuleValidationError "Unexpected end of expression").
Proof.
  intros Hb Hne.
  assert (Htok : tokenize rule_string = Ok []).
  { unfold tokenize, raw_tokens.
    rewrite (bool_decide_eq_false_2 _ Hne), (findall_blank _ Hb).
    reflexivity. }
  split; [exact Htok|]. unfold create_rule. rewrite Htok. reflexivity.
Qed.

Lemma blank_rule_rejected_witness :
  create_rule test_engine "   "
  = Raise (RuleValidationError "Unexpected end of expression").
Proof.
  exact (proj2 (blank_rule_rejected test_engine "   " eq_refl
                  ltac:(discriminate))).
Defined.

(** Inside a quoted string the scanner reads up to the closing quote. *)
Lemma findall_in_quote q acc body rest :
  q ∉ body ->
  findall (InQuote q acc) (body ++ q :: rest)
  = str (q :: rev acc ++ body ++ [q]) :: findall Idle rest.
Proof.
  revert acc. induction body as [|c body IH]; intros acc Hq; simpl.
  - now rewrite bool_decide_eq_true_2 by reflexivity.
  - rewrite bool_decide_eq_false_2
      by (intros ->; apply Hq; constructor).
    rewrite IH by (intros H; apply Hq; now constructor).
    simpl. now rewrite <- app_assoc.
Qed.

(** X10.  A string between two single or two double quotes, free of that
    quote, is one token: the string itself, white space included, without
    its quotes; it is not read as a number, an operator or a marker. *)
Theorem quoted_literal_verbatim (q : ascii) (body : string) :
  q = squote \/ q = dquote ->
  q ∉ chars body ->
  tokenize (quoted q body) = Ok [VStr body].
Proof.
  intros Hq Hbody. unfold tokenize, raw_tokens, quoted.
  rewrite bool_decide_eq_false_2
    by (intros H; apply (f_equal chars) in H; rewrite chars_str in H;
        discriminate H).
  rewrite chars_str.
  assert (Hscan : findall Idle (q :: chars body ++ [q])
                  = [str (q :: chars body ++ [q])]).
  { assert (Hclosed : existsb (fun x => bool_decide (x = q))
                        (chars body ++ [q]) = true).
    { rewrite existsb_app. simpl.
      rewrite bool_decide_eq_true_2 by reflexivity. apply orb_true_r. }
    transitivity (findall (InQuote q []) (chars body ++ [q])).
    - destruct Hq as [-> | ->]; simpl; now rewrite Hclosed.
    - now rewrite findall_in_quote. }
  rewrite Hscan. cbn [map].
  assert (Hstrip : py_strip (str (q :: chars body ++ [q]))
                   = str (q :: chars body ++ [q])).
  { unfold py_strip, strip_with. rewrite chars_str. f_equal.
    assert (Hnot : is_space q = false) by (destruct Hq as [-> | ->]; reflexivity).
    simpl. rewrite Hnot. simpl. rewrite rev_app_distr. simpl.
    rewrite Hnot. simpl. rewrite rev_app_distr, rev_involutive. reflexivity. }
  rewrite Hstrip. cbn [process_tokens].
  assert (Hquoted : is_quoted (str (q :: chars body ++ [q])) = true).
  { unfold is_quoted, startswith, endswith. rewrite chars_str. simpl.
    rewrite rev_app_distr. simpl.
    destruct Hq as [-> | ->]; reflexivity. }
  rewrite Hquoted. unfold slice_1_m1. rewrite chars_str. simpl.
  now rewrite removelast_last, str_chars.
Qed.

Lemma quoted_literal_verbatim_witness :
  tokenize "'30 AND (x'" = Ok [VStr "30 AND (x"].
Proof.
  refine (quoted_literal_verbatim squote "30 AND (x" (or_introl eq_refl) _).
  intros H. apply list_elem_of_In in H. simpl in H.
  repeat destruct H as [H|H]; try discriminate H. exact H.
Defined.

(** ** The record and the evaluator *)

(** Induction on a tree, through its children and the calls among its
    arguments. *)
Lemma Node_nested_ind (P : Node -> Prop) :
  (forall t v l r o f fn args,
      (forall x, l = Some x -> P x) ->
      (forall x, r = Some x -> P x) ->
      (forall a, args = Some a -> Forall (fun arg =>
         match arg with inr sub => P sub | inl _ => True end) a) ->
      P (mkNode t v l r o f fn args)) ->
  forall node, P node.
Proof.
  intros H. fix IH 1. intros [t v l r o f fn args]. apply H.
  - destruct l as [x|]; [|intros y [=]].
    intros y Heq. injection Heq as <-. apply IH.
  - destruct r as [x|]; [|intros y [=]].
    intros y Heq. injection Heq as <-. apply IH.
  - destruct args as [a|]; [|intros y [=]].
    intros y Heq. injection Heq as <-.
    induction a as [|[token|sub] a IHa]; constructor; trivial.
Qed.

Section Record.
Context (self : RuleEngine) (key : string) (data data' : gmap string PyVal).
Hypothesis Hagree : forall k, k <> key -> data !! k = data' !! k.

Lemma evaluate_function_frame node :
  ~ mentions key node ->
  evaluate_function self node data = evaluate_function self node data'.
Proof.
  induction node as [t v l r o f fn args _ _ IHargs] using Node_nested_ind.
  intros Hno. simpl.
  destruct fn as [fname|]; [|reflexivity].
  destruct (function_registry self !! fname) as [func|]; [|reflexivity].
  destruct args as [a|]; [|reflexivity].
  specialize (IHargs a eq_refl).
  assert (Hargs : ~ (fix any (args : list (PyVal + Node)) : Prop :=
            match args with
            | [] => False
            | inl token :: rest => token = VStr key \/ any rest
            | inr sub :: rest => mentions key sub \/ any rest
            end) a) by (intros H; apply Hno; simpl; auto).
  clear Hno. f_equal.
  induction a as [|arg a IHa]; [reflexivity|].
  inversion IHargs as [|? ? Harg Hrest]; subst.
  rewrite (IHa Hrest) by (intros H; apply Hargs; destruct arg; now right).
  destruct arg as [token|sub].
  - destruct token as [| | | |s|]; try reflexivity.
    rewrite Hagree; [reflexivity|].
    intros ->. apply Hargs. now left.
  - rewrite Harg; [reflexivity|]. intros H. apply Hargs. now left.
Qed.

Lemma evaluate_rule_frame node :
  ~ mentions key node ->
  evaluate_rule self node data = evaluate_rule self node data'.
Proof.
  induction node as [t v l r o f fn args IHl IHr _] using Node_nested_ind.
  intros Hno. rewrite !evaluate_rule_unfold. f_equal.
  unfold evaluate_rule_try. cbn [node_type node_field node_left node_right
    node_operator node_value].
  destruct t.
  - assert (Hl : evaluate_child self l data = evaluate_child self l data').
    { destruct l as [x|]; [|reflexivity]. apply (IHl x eq_refl).
      intros H. apply Hno. simpl. auto. }
    assert (Hr : evaluate_child self r data = evaluate_child self r data').
    { destruct r as [x|]; [|reflexivity]. apply (IHr x eq_refl).
      intros H. apply Hno. simpl. auto. }
    now rewrite Hl, Hr.
  - destruct f as [field|]; [|reflexivity].
    rewrite Hagree; [reflexivity|].
    intros ->. apply Hno. simpl. now left.
  - now rewrite (evaluate_function_frame _ Hno).
Qed.
End Record.

(** X11.  [evaluate_rule] reads the record only under the keys that the
    tree mentions: two records that differ at one key alone give the same
    outcome for every tree that does not mention this key. *)
Theorem evaluation_reads_mentioned_fields
  (self : RuleEngine) (key : string) (data data' : gmap string PyVal)
  (node : Node) :
  (forall k, k <> key -> data !! k = data' !! k) ->
  ~ mentions key node ->
  evaluate_rule self node data = evaluate_rule self node data'.
Proof. intros Hagree. now apply evaluate_rule_frame. Qed.

Lemma evaluation_reads_mentioned_fields_witness :
  evaluate_rule test_engine sales_ast
    (record [("age", VInt 35); ("department", VStr "Sales")])
  = evaluate_rule test_engine sales_ast
      (<["salary" := VInt 1]>
         (record [("age", VInt 35); ("department", VStr "Sales")])).
Proof.
  refine (evaluation_reads_mentioned_fields test_engine "salary" _ _
            sales_ast _ _).
  - intros k Hk. symmetry. now apply lookup_insert_ne.
  - simpl. intros H.
    repeat match goal with
           | H : _ \/ _ |- _ => destruct H as [H | H]
           end; try discriminate H; exact H.
Defined.

(** X12.  The words [AND] and [OR] are operators of a comparison as well:
    a registered field followed by one of them and by a third token parses
    as a comparison node, and such a node evaluates to false whenever the
    field is in the record and its value passes the validation. *)
Theorem logical_word_as_comparison
  (self : RuleEngine) (field : string) (literal : PyVal) (op : Operator)
  (data : gmap string PyVal) (found value : PyVal) :
  op = AND \/ op = OR ->
  is_Some (attribute_catalog self !! field) ->
  field <> "(" ->
  contains lparen field = false ->
  data !! field = Some found ->
  validate_attribute self field found = Ok value ->
  parse_expression self
    [VStr field; VStr (match op with AND => "AND" | _ => "OR" end); literal] 0
  = Ok (comparison_node field op literal, 3)
  /\ evaluate_rule self (comparison_node field op literal) data = Ok false.
Proof.
  intros Hop Hcat Hopen Hmarker Hdata Hvalid. split.
  - unfold parse_expression. cbn [length parse_expression_fuel lookup
      list_lookup default from_option id].
    cbn [tok_eq is_marker]. rewrite (bool_decide_eq_false_2 _ Hopen), Hmarker.
    destruct Hop as [-> | ->]; simpl;
      now rewrite (bool_decide_eq_true_2 _ Hcat).
  - rewrite evaluate_rule_unfold. unfold evaluate_rule_try. simpl.
    rewrite Hdata, Hvalid. destruct Hop as [-> | ->]; reflexivity.
Qed.

Lemma logical_word_as_comparison_witness :
  parse_expression test_engine [VStr "age"; VStr "AND"; VStr "department"] 0
  = Ok (comparison_node "age" AND (VStr "department"), 3)
  /\ evaluate_rule test_engine
       (comparison_node "age" AND (VStr "department"))
       (record [("age", VInt 35); ("department", VStr "Sales")]) = Ok false.
Proof.
  refine (logical_word_as_comparison test_engine "age" (VStr "department")
            AND (record [("age", VInt 35); ("department", VStr "Sales")])
            (VInt 35) (VInt 35) (or_introl eq_refl) _ _ _ _ _);
    try discriminate; try (vm_compute; reflexivity).
  vm_compute; eauto.
Defined.

(** X13.  With the built-in [length] registered, the call of [length] on
    one bare word is true iff the string it measures is not empty: the
    value of the record under that word when the record has it, and the
    word itself otherwise. *)
Theorem length_call_truth
  (self : RuleEngine) (data : gmap string PyVal) (word : string) :
  function_registry self !! "length" = Some builtin_len ->
  (forall s,
      data !! word = Some (VStr s) ->
      evaluate_rule self (function_node "length" [inl (VStr word)]) data
      = Ok (negb (bool_decide (s = ""))))
  /\ (data !! word = None ->
      evaluate_rule self (function_node "length" [inl (VStr word)]) data
      = Ok (negb (bool_decide (word = "")))).
Proof.
  intros Hreg.
  assert (Hlen : forall s,
            py_bool (VInt (Z.of_nat (String.length s)))
            = Ok (negb (bool_decide (s = "")))) by (intros [|c s]; reflexivity).
  assert (Hcall :
            evaluate_function self (function_node "length" [inl (VStr word)])
                              data
            = builtin_len [default (VStr word) (data !! word)]).
  { unfold function_node.
    cbn [evaluate_function node_function node_args].
    unfold Callable in *. now rewrite Hreg. }
  split; [intros s Hdata|intros Hdata];
    rewrite evaluate_rule_unfold; unfold evaluate_rule_try;
    cbn [function_node node_type]; fold (function_node "length"
                                           [inl (VStr word)]);
    rewrite Hcall, Hdata; cbn [default from_option id builtin_len mbind
                               outcome_bind];
    now rewrite Hlen.
Qed.

Lemma length_call_truth_witness :
  evaluate_rule test_engine (function_node "length" [inl (VStr "name")])
    (record [("name", VStr "Bob")]) = Ok true.
Proof.
  exact (proj1 (length_call_truth test_engine
                  (record [("name", VStr "Bob")]) "name" eq_refl) "Bob"
           eq_refl).
Defined.
